(** * Shallow embedding of the resource command module of azure-cli

    Source: src/command_modules/azure-cli-resource/azure/cli/command_modules/resource/custom.py

    Python strings are Rocq [string]s, [None] is [option], Python dicts
    are association lists kept in insertion order, and the exceptions the
    code raises are the [Err] branch of [result]. *)

From Stdlib Require Import String Ascii List Bool ZArith Lia DecimalString.
Import ListNotations.
Open Scope list_scope.
Open Scope string_scope.

(** ** Python errors and results *)

Inductive py_error : Type :=
| CLIError (msg : string)
| IncorrectUsageError (msg : string)
| KeyError (key : string)
| TypeError (msg : string)
| ValueError (msg : string).

Inductive result (A : Type) : Type :=
| Ok (a : A)
| Err (e : py_error).
Arguments Ok {A} a.
Arguments Err {A} e.

Definition bind {A B} (m : result A) (k : A -> result B) : result B :=
  match m with
  | Ok a => k a
  | Err e => Err e
  end.

Notation "x <- m ;; k" := (bind m (fun x => k))
  (at level 61, m at next level, right associativity).

Definition is_err {A} (r : result A) : bool :=
  match r with Ok _ => false | Err _ => true end.

(** ** Python string operations *)

(** Python truthiness of an optional string: [None] and [''] are falsy. *)
Definition truthy (s : option string) : bool :=
  match s with
  | None | Some EmptyString => false
  | Some _ => true
  end.

Definition slash : ascii := "/"%char.
Definition star : ascii := "*"%char.

(** [str.lower] on ASCII text. *)
Definition lower_char (c : ascii) : ascii :=
  let n := nat_of_ascii c in
  if ((65 <=? n) && (n <=? 90))%nat then ascii_of_nat (n + 32)%nat else c.

Fixpoint lower (s : string) : string :=
  match s with
  | EmptyString => EmptyString
  | String c r => String (lower_char c) (lower r)
  end.

(** [needle in hay] for strings. *)
Fixpoint contains (needle hay : string) : bool :=
  if String.prefix needle hay then true
  else match hay with
       | EmptyString => false
       | String _ r => contains needle r
       end.

(** [s.split('/')]: always at least one piece. *)
Fixpoint split_slash (s : string) : list string :=
  match s with
  | EmptyString => [EmptyString]
  | String c r =>
      let parts := split_slash r in
      if Ascii.eqb c slash then EmptyString :: parts
      else match parts with
           | p :: ps => String c p :: ps
           | [] => [String c EmptyString]
           end
  end.

(** [xs[0]] and [xs[1]], raising [IndexError] (a [TypeError] here) out of range. *)
Definition py_index {A} (xs : list A) (i : nat) : result A :=
  match nth_error xs i with
  | Some x => Ok x
  | None => Err (TypeError "list index out of range")
  end.

(** [' and '.join(xs)] *)
Definition join_and (xs : list string) : string := String.concat " and " xs.

(** ** Resource providers, as returned by [rcf.providers.get] *)

Record ProviderResourceType := {
  resource_type : string;
  api_versions : list string   (* [None] and [[]] are both falsy *)
}.

Record Provider := {
  resource_types : list ProviderResourceType
}.

(** The management client: only the part the resolver uses.
    [providers_get ns = None] means the service call raised. *)
Record Rcf := {
  providers_get : string -> option Provider
}.

(** ** [_ResourceUtils._resolve_api_version] *)

Definition _resolve_api_version (rcf : Rcf) (resource_provider_namespace : string)
    (parent_resource_path : option string) (resource_type_ : string) : result string :=
  match providers_get rcf resource_provider_namespace with
  | None => Err (CLIError ("provider " ++ resource_provider_namespace ++ " not found"))
  | Some provider =>
      (* If available, we will use parent resource's api-version *)
      let resource_type_str :=
        match parent_resource_path with
        | Some p => if truthy (Some p) then hd EmptyString (split_slash p) else resource_type_
        | None => resource_type_
        end in
      let rt := filter (fun t => String.eqb (lower (resource_type t)) (lower resource_type_str))
                       (resource_types provider) in
      match rt with
      | [] => Err (IncorrectUsageError ("Resource type " ++ resource_type_str ++ " not found."))
      | [t] =>
          match api_versions t with
          | [] => Err (IncorrectUsageError
                    ("API version is required and could not be resolved for resource "
                       ++ resource_type_))
          | v0 :: _ =>
              let npv := filter (fun v => negb (contains "preview" (lower v))) (api_versions t) in
              match npv with
              | v :: _ => Ok v
              | [] => Ok v0
              end
          end
      | _ => Err (IncorrectUsageError
                ("API version is required and could not be resolved for resource "
                   ++ resource_type_))
      end
  end.

(** ** Python dicts as association lists in insertion order *)

Definition dict (V : Type) := list (string * V).

Fixpoint dict_get {V} (d : dict V) (k : string) : option V :=
  match d with
  | [] => None
  | (k', v) :: r => if String.eqb k k' then Some v else dict_get r k
  end.

(** [d[k]], raising [KeyError]. *)
Definition dict_index {V} (d : dict V) (k : string) : result V :=
  match dict_get d k with
  | Some v => Ok v
  | None => Err (KeyError k)
  end.

(** [d.get(k, default)] *)
Definition dict_get_default {V} (d : dict V) (k : string) (default : V) : V :=
  match dict_get d k with
  | Some v => v
  | None => default
  end.

(** [d[k] = v]: an existing key keeps its position, a new key goes last. *)
Fixpoint dict_set {V} (d : dict V) (k : string) (v : V) : dict V :=
  match d with
  | [] => [(k, v)]
  | (k', v') :: r => if String.eqb k k' then (k', v) :: r else (k', v') :: dict_set r k v
  end.

(** [d.update(other)] *)
Definition dict_update {V} (d other : dict V) : dict V :=
  fold_left (fun acc kv => dict_set acc (fst kv) (snd kv)) other d.

(** ** Resource ids *)

(** Modelled from the spec: [parse_resource_id] of
    [azure.cli.core.commands.arm], which is not part of the sources here.
    An id [/subscriptions/S/resourceGroups/G/providers/NS/T/N] is decomposed
    into subscription, resource group, namespace, type and name, followed
    by an optional nested child segment [/CT/CN] (or
    [/providers/CNS/CT/CN] when the child carries its own namespace) and
    an optional grandchild segment [/GT/GN]. Keys without a value are
    absent from the returned dict; an id of another shape yields
    [{'name': rid}]. *)
Definition parse_children (rest : list string) : dict string :=
  let grand (r : list string) : dict string :=
    match r with
    | gt :: gn :: _ => [("grandchild_type", gt); ("grandchild_name", gn)]
    | _ => []
    end in
  match rest with
  | p :: cns :: ct :: cn :: r =>
      if String.eqb p "providers"
      then ([("child_namespace", cns); ("child_type", ct); ("child_name", cn)] ++ grand r)%list
      else ([("child_type", p); ("child_name", cns)] ++ grand (ct :: cn :: r))%list
  | ct :: cn :: r => ([("child_type", ct); ("child_name", cn)] ++ grand r)%list
  | _ => []
  end.

Definition parse_resource_id (rid : string) : dict string :=
  match split_slash rid with
  | e :: s :: sub :: g :: rg :: p :: ns :: t :: n :: rest =>
      if String.eqb e "" && String.eqb s "subscriptions" && String.eqb g "resourceGroups"
         && String.eqb p "providers"
      then ([("subscription", sub); ("resource_group", rg); ("namespace", ns);
            ("type", t); ("name", n)] ++ parse_children rest)%list
      else [("name", rid)]
  | _ => [("name", rid)]
  end.

(** ** [_ResourceUtils._resolve_api_version_by_id] *)

Definition _resolve_api_version_by_id (rcf : Rcf) (resource_id : string) : result string :=
  let parts := parse_resource_id resource_id in
  ns0 <- dict_index parts "namespace" ;;
  let namespace := dict_get_default parts "child_namespace" ns0 in
  if truthy (dict_get parts "grandchild_type") then
    t <- dict_index parts "type" ;;
    n <- dict_index parts "name" ;;
    ct <- dict_index parts "child_type" ;;
    cn <- dict_index parts "child_name" ;;
    let parent := t ++ "/" ++ n ++ "/" ++ ct ++ "/" ++ cn in
    rtype <- dict_index parts "grandchild_type" ;;
    _resolve_api_version rcf namespace (Some parent) rtype
  else if truthy (dict_get parts "child_type") then
    (* if the child resource has a provider namespace it is independent of the
       parent, so set the parent to empty *)
    parent <- (match dict_get parts "child_namespace" with
               | Some _ => Ok ""
               | None => t <- dict_index parts "type" ;;
                         n <- dict_index parts "name" ;;
                         Ok (t ++ "/" ++ n)
               end) ;;
    rtype <- dict_index parts "child_type" ;;
    _resolve_api_version rcf namespace (Some parent) rtype
  else
    rtype <- dict_index parts "type" ;;
    _resolve_api_version rcf namespace None rtype.

(** [x is not None] *)
Definition is_not_none {A} (x : option A) : bool :=
  match x with Some _ => true | None => false end.

(** ** [_validate_lock_params] *)

Definition lock_scope : Type :=
  (option string * option string * option string * option string)%type.

Definition _validate_lock_params (resource_group_name resource_provider_namespace
    parent_resource_path resource_type_ resource_name : option string) : result lock_scope :=
  match resource_group_name with
  | None =>
      if is_not_none resource_name then
        Err (CLIError "--resource-name is ignored if --resource-group is not given.")
      else if is_not_none resource_type_ then
        Err (CLIError "--resource-type is ignored if --resource-group is not given.")
      else if is_not_none resource_provider_namespace then
        Err (CLIError "--namespace is ignored if --resource-group is not given.")
      else if is_not_none parent_resource_path then
        Err (CLIError "--parent is ignored if --resource-group is not given.")
      else Ok (None, None, None, None)
  | Some g =>
      match resource_name with
      | None =>
          if is_not_none resource_type_ then
            Err (CLIError "--resource-type is ignored if --resource-name is not given.")
          else if is_not_none resource_provider_namespace then
            Err (CLIError "--namespace is ignored if --resource-name is not given.")
          else if is_not_none parent_resource_path then
            Err (CLIError "--parent is ignored if --resource-name is not given.")
          else Ok (Some g, None, None, None)
      | Some n =>
          match resource_type_ with
          | None | Some EmptyString =>
              Err (CLIError "--resource-type is required if --resource-name is present")
          | Some t =>
              let parts := split_slash t in
              match resource_provider_namespace with
              | None =>
                  if Nat.eqb (length parts) 1 then
                    Err (CLIError ("A resource namespace is required if --resource-name is present."
                                   ++ "Expected <namespace>/<type> or --namespace=<namespace>"))
                  else
                    ns <- py_index parts 0 ;;
                    ty <- py_index parts 1 ;;
                    Ok (Some g, Some n, Some ns, Some ty)
              | Some ns =>
                  if negb (Nat.eqb (length parts) 1) then
                    Err (CLIError "Resource namespace specified in both --resource-type and --namespace")
                  else Ok (Some g, Some n, Some ns, Some t)
              end
          end
      end
  end.

(** ** [_validate_resource_inputs] *)

Definition _validate_resource_inputs (resource_group_name resource_provider_namespace
    resource_type_ resource_name : option string) : result unit :=
  if negb (is_not_none resource_group_name) then Err (CLIError "--resource-group/-g is required.")
  else if negb (is_not_none resource_type_) then Err (CLIError "--resource-type is required")
  else if negb (is_not_none resource_name) then Err (CLIError "--name/-n is required")
  else if negb (is_not_none resource_provider_namespace) then Err (CLIError "--namespace is required")
  else Ok tt.

(** ** [_ResourceUtils.__init__] *)

Record ResourceUtils := {
  ru_resource_group_name : option string;
  ru_resource_provider_namespace : option string;
  ru_parent_resource_path : option string;
  ru_resource_type : option string;
  ru_resource_name : option string;
  ru_resource_id : option string;
  ru_api_version : string
}.

(** The namespace split at the top of [__init__]. *)
Definition split_embedded_namespace (resource_provider_namespace parent_resource_path
    resource_type_ : option string) : option string * option string :=
  (* if the resouce_type is in format 'namespace/type' split it. *)
  if truthy resource_type_ && negb (truthy resource_provider_namespace)
     && negb (truthy parent_resource_path) then
    match resource_type_ with
    | Some t =>
        let parts := split_slash t in
        if Nat.ltb 1 (length parts)
        then (Some (nth 0 parts EmptyString), Some (nth 1 parts EmptyString))
        else (resource_provider_namespace, resource_type_)
    | None => (resource_provider_namespace, resource_type_)
    end
  else (resource_provider_namespace, resource_type_).

Definition _ResourceUtils_init (rcf : Rcf) (resource_group_name resource_provider_namespace
    parent_resource_path resource_type_ resource_name resource_id api_version : option string)
    : result ResourceUtils :=
  let '(resource_provider_namespace, resource_type_) :=
    split_embedded_namespace resource_provider_namespace parent_resource_path resource_type_ in
  api_version <-
    (match api_version with
     | Some v => Ok v
     | None =>
         match resource_id with
         | Some rid =>
             if truthy resource_id then _resolve_api_version_by_id rcf rid
             else
               _ <- _validate_resource_inputs resource_group_name resource_provider_namespace
                      resource_type_ resource_name ;;
               match resource_provider_namespace, resource_type_ with
               | Some ns, Some t => _resolve_api_version rcf ns parent_resource_path t
               | _, _ => Err (TypeError "unreachable")
               end
         | None =>
             _ <- _validate_resource_inputs resource_group_name resource_provider_namespace
                    resource_type_ resource_name ;;
             match resource_provider_namespace, resource_type_ with
             | Some ns, Some t => _resolve_api_version rcf ns parent_resource_path t
             | _, _ => Err (TypeError "unreachable")
             end
         end
     end) ;;
  Ok {| ru_resource_group_name := resource_group_name;
        ru_resource_provider_namespace := resource_provider_namespace;
        ru_parent_resource_path := parent_resource_path;
        ru_resource_type := resource_type_;
        ru_resource_name := resource_name;
        ru_resource_id := resource_id;
        ru_api_version := api_version |}.

(** ** [_list_resources_odata_filter_builder] *)

(** A tag filter as the argument parser hands it over: a dict
    [{name: value}] or a bare string. *)
Inductive Tag : Type :=
| TagDict (d : dict string)
| TagStr (s : string).

Definition tag_truthy (tag : option Tag) : bool :=
  match tag with
  | None | Some (TagDict []) | Some (TagStr EmptyString) => false
  | Some _ => true
  end.

(** The text before the first ['/'] and, if there is one, the text after it. *)
Fixpoint break_slash (s : string) : string * option string :=
  match s with
  | EmptyString => (EmptyString, None)
  | String c r =>
      if Ascii.eqb c slash then (EmptyString, Some r)
      else let '(pre, post) := break_slash r in (String c pre, post)
  end.

(** [re.match('[^/]+/[^/]+', s)] is truthy: a non-empty segment, a slash,
    and a character other than a slash. *)
Definition re_match_ns_type (s : string) : bool :=
  match break_slash s with
  | (pre, Some (String c _)) => negb (String.eqb pre EmptyString) && negb (Ascii.eqb c slash)
  | _ => false
  end.

(** [s[-1]] of a non-empty string. *)
Fixpoint last_char (s : string) : option ascii :=
  match s with
  | EmptyString => None
  | String c EmptyString => Some c
  | String _ r => last_char r
  end.

(** [s[0:-1]] *)
Definition drop_last (s : string) : string :=
  String.substring 0 (String.length s - 1) s.

Definition opt_str (s : option string) : string :=
  match s with Some x => x | None => EmptyString end.

(** The list [filters] as the function builds it. *)
Definition odata_filters (resource_group_name resource_provider_namespace resource_type_
    name : option string) (tag : option Tag) (location : option string)
    : result (list string) :=
  let filters : list string := [] in
  let filters := if truthy resource_group_name
                 then app filters ["resourceGroup eq '" ++ opt_str resource_group_name ++ "'"]
                 else filters in
  let filters := if truthy name
                 then app filters ["name eq '" ++ opt_str name ++ "'"]
                 else filters in
  let filters := if truthy location
                 then app filters ["location eq '" ++ opt_str location ++ "'"]
                 else filters in
  filters <-
    (if truthy resource_type_ then
       f <- (if truthy resource_provider_namespace then
               Ok ("'" ++ opt_str resource_provider_namespace ++ "/" ++ opt_str resource_type_ ++ "'")
             else if negb (re_match_ns_type (opt_str resource_type_)) then
               Err (CLIError ("Malformed resource-type: "
                              ++ "--resource-type=<namespace>/<resource-type> expected."))
             else
               (* assume resource_type is <namespace>/<type>. *)
               Ok ("'" ++ opt_str resource_type_ ++ "'")) ;;
       Ok (app filters ["resourceType eq " ++ f])
     else if truthy resource_provider_namespace then
       Err (CLIError "--namespace also requires --resource-type")
     else Ok filters) ;;
  match tag with
  | Some tg =>
      if tag_truthy tag then
        if truthy name || truthy location then
          Err (IncorrectUsageError "you cannot use the tag filter with other filters")
        else
          tag_name <- (match tg with
                       | TagDict d => py_index (map fst d) 0
                       | TagStr s => Ok s
                       end) ;;
          tag_value <- (match tg with
                        | TagDict d => dict_index d tag_name
                        | TagStr _ => Ok EmptyString
                        end) ;;
          if truthy (Some tag_name) then
            match last_char tag_name with
            | Some c =>
                if Ascii.eqb c star then
                  Ok (app filters ["startswith(tagname, '" ++ drop_last tag_name ++ "')"])
                else
                  let filters := app filters ["tagname eq '" ++ tag_name ++ "'"] in
                  if negb (String.eqb tag_value EmptyString)
                  then Ok (app filters ["tagvalue eq '" ++ tag_value ++ "'"])
                  else Ok filters
            | None => Ok filters
            end
          else Ok filters
      else Ok filters
  | None => Ok filters
  end.

Definition _list_resources_odata_filter_builder (resource_group_name resource_provider_namespace
    resource_type_ name : option string) (tag : option Tag) (location : option string)
    : result string :=
  filters <- odata_filters resource_group_name resource_provider_namespace resource_type_
                           name tag location ;;
  Ok (join_and filters).

(** ** [_build_policy_scope] *)

Definition _build_policy_scope (subscription_id : string)
    (resource_group_name scope : option string) : result (option string) :=
  let subscription_scope := "/subscriptions/" ++ subscription_id in
  if truthy scope then
    if truthy resource_group_name then
      Err (CLIError ("Resource group '" ++ opt_str resource_group_name
                     ++ "' is redundant because 'scope' is supplied"))
    else Ok scope
  else if truthy resource_group_name then
    Ok (Some (subscription_scope ++ "/resourceGroups/" ++ opt_str resource_group_name))
  else Ok (Some subscription_scope).

(** ** Locks: [_update_lock_parameters] and [update_lock] *)

(** A [ManagementLockObject]; [lock_extra] holds attributes the model does
    not declare, which Python adds to the instance on assignment and
    which the serializer does not send. *)
Record ManagementLockObject := {
  lock_level : option string;
  lock_notes : option string;
  lock_name : option string;
  lock_id : option string;
  lock_type : option string;
  lock_extra : dict string
}.

(** [obj.<attr> = v] *)
Definition lock_setattr (o : ManagementLockObject) (attr v : string) : ManagementLockObject :=
  if String.eqb attr "level" then
    {| lock_level := Some v; lock_notes := lock_notes o; lock_name := lock_name o;
       lock_id := lock_id o; lock_type := lock_type o; lock_extra := lock_extra o |}
  else if String.eqb attr "notes" then
    {| lock_level := lock_level o; lock_notes := Some v; lock_name := lock_name o;
       lock_id := lock_id o; lock_type := lock_type o; lock_extra := lock_extra o |}
  else if String.eqb attr "name" then
    {| lock_level := lock_level o; lock_notes := lock_notes o; lock_name := Some v;
       lock_id := lock_id o; lock_type := lock_type o; lock_extra := lock_extra o |}
  else if String.eqb attr "id" then
    {| lock_level := lock_level o; lock_notes := lock_notes o; lock_name := lock_name o;
       lock_id := Some v; lock_type := lock_type o; lock_extra := lock_extra o |}
  else if String.eqb attr "type" then
    {| lock_level := lock_level o; lock_notes := lock_notes o; lock_name := lock_name o;
       lock_id := lock_id o; lock_type := Some v; lock_extra := lock_extra o |}
  else
    {| lock_level := lock_level o; lock_notes := lock_notes o; lock_name := lock_name o;
       lock_id := lock_id o; lock_type := lock_type o; lock_extra := dict_set (lock_extra o) attr v |}.

Definition setattr_if (o : ManagementLockObject) (attr : string) (v : option string)
    : ManagementLockObject :=
  match v with
  | Some x => lock_setattr o attr x
  | None => o
  end.

Definition _update_lock_parameters (parameters : ManagementLockObject)
    (level notes lock_id lock_type : option string) : ManagementLockObject :=
  let parameters := setattr_if parameters "level" level in
  let parameters := setattr_if parameters "nodes" notes in
  let parameters := setattr_if parameters "id" lock_id in
  setattr_if parameters "type" lock_type.

(** The locks held by the service, at subscription and at resource-group level. *)
Record LockStore := {
  sub_locks : dict ManagementLockObject;
  rg_locks : dict (dict ManagementLockObject)
}.

Definition lock_not_found (name : string) : py_error :=
  CLIError ("The lock '" ++ name ++ "' could not be found.").

(** [update_lock]: returns the lock object sent with [create_or_update_*]
    and the service's locks afterwards. *)
Definition update_lock (store : LockStore) (name : string)
    (resource_group_name level notes : option string)
    : result (ManagementLockObject * LockStore) :=
  match resource_group_name with
  | None =>
      match dict_get (sub_locks store) name with
      | None => Err (lock_not_found name)
      | Some params =>
          let params := _update_lock_parameters params level notes None None in
          Ok (params, {| sub_locks := dict_set (sub_locks store) name params;
                         rg_locks := rg_locks store |})
      end
  | Some rg =>
      let group := dict_get_default (rg_locks store) rg [] in
      match dict_get group name with
      | None => Err (lock_not_found name)
      | Some params =>
          let params := _update_lock_parameters params level notes None None in
          Ok (params, {| sub_locks := sub_locks store;
                         rg_locks := dict_set (rg_locks store) rg (dict_set group name params) |})
      end
  end.

(** ** Deployment parameters *)

Set Warnings "-register-all".

(** Parsed JSON; [JNull] is Python's [None]. *)
Inductive json : Type :=
| JNull
| JBool (b : bool)
| JInt (z : Z)
| JStr (s : string)
| JArr (l : list json)
| JObj (o : list (string * json)).

Definition json_truthy (j : json) : bool :=
  match j with
  | JNull | JBool false | JInt Z0 | JStr EmptyString | JArr [] | JObj [] => false
  | _ => true
  end.

(** [j.get(k, default)], an [AttributeError] (a [TypeError] here) on a non-dict. *)
Definition json_get (j : json) (k : string) (default : json) : result json :=
  match j with
  | JObj o => Ok (dict_get_default o k default)
  | _ => Err (TypeError "object has no attribute 'get'")
  end.

(** The unwrapping step of [_merge_parameters]. *)
Definition unwrap_parameters (params_object : json) : result json :=
  if json_truthy params_object then json_get params_object "parameters" params_object
  else Ok params_object.

(** One element of a sequence given to [dict.update]: it must be an
    iterable of length two (a list, a string of two characters, a dict of
    two keys) whose first item is hashable. A key that is a number, a
    boolean or [None] is hashable in Python but has no place in the
    string-keyed dicts of this model; such an element is an error here. *)
Definition update_pair (e : json) : result (string * json) :=
  match e with
  | JArr [JStr k; v] => Ok (k, v)
  | JArr [JArr _; _] | JArr [JObj _; _] => Err (TypeError "unhashable type")
  | JArr [_; _] => Err (TypeError "key outside the string-keyed model")
  | JStr (String a (String b EmptyString)) => Ok (String a EmptyString, JStr (String b EmptyString))
  | JObj [(k1, _); (k2, _)] => Ok (k1, JStr k2)
  | JArr _ | JStr _ | JObj _ =>
      Err (ValueError "dictionary update sequence element has wrong length; 2 is required")
  | _ => Err (TypeError "cannot convert dictionary update sequence element to a sequence")
  end.

(** [d.update(seq)] for a sequence of pairs, in order. *)
Fixpoint update_pairs (d : dict json) (elems : list json) : result (dict json) :=
  match elems with
  | [] => Ok d
  | e :: rest => kv <- update_pair e ;; update_pairs (dict_set d (fst kv) (snd kv)) rest
  end.

(** [parameters.update(params_object)]: a dict is merged in; a list is a
    sequence of pairs; a string is a sequence of one-character strings,
    so only the empty string is accepted; anything else is not iterable. *)
Definition json_update (parameters params_object : json) : result json :=
  match parameters, params_object with
  | JObj d, JObj o => Ok (JObj (dict_update d o))
  | JObj d, JArr elems => d' <- update_pairs d elems ;; Ok (JObj d')
  | JObj d, JStr EmptyString => Ok (JObj d)
  | JObj _, JStr _ =>
      Err (ValueError "dictionary update sequence element #0 has length 1; 2 is required")
  | JObj _, _ => Err (TypeError "object is not iterable")
  | _, _ => Err (TypeError "object has no attribute 'update'")
  end.

(** [_merge_parameters]; the documents arrive already parsed by
    [shell_safe_json_parse]. *)
Fixpoint merge_loop (parameters : json) (parameter_list : list json) : result json :=
  match parameter_list with
  | [] => Ok parameters
  | params :: rest =>
      params_object <- unwrap_parameters params ;;
      parameters <- (match parameters with
                     | JNull => Ok params_object
                     | _ => json_update parameters params_object
                     end) ;;
      merge_loop parameters rest
  end.

Definition _merge_parameters (parameter_list : option (list json)) : result json :=
  merge_loop JNull (match parameter_list with Some l => l | None => [] end).

(** [_find_missing_parameters] *)
Fixpoint missing_loop (parameters : json) (template_parameters : list (string * json))
    : result (dict json) :=
  match template_parameters with
  | [] => Ok []
  | (parameter_name, parameter) :: rest =>
      dv <- json_get parameter "defaultValue" JNull ;;
      match dv with
      | JNull =>
          supplied <- (match parameters with
                       | JNull => Ok JNull
                       | _ => json_get parameters parameter_name JNull
                       end) ;;
          missing <- missing_loop parameters rest ;;
          match supplied with
          | JNull => Ok ((parameter_name, parameter) :: missing)
          | _ => Ok missing
          end
      | _ => missing_loop parameters rest
      end
  end.

Definition _find_missing_parameters (parameters template : json) : result (dict json) :=
  match template with
  | JNull => Ok []
  | _ =>
      template_parameters <- json_get template "parameters" JNull ;;
      match template_parameters with
      | JNull => Ok []
      | JObj tp => missing_loop parameters tp
      (* the loop runs zero times *)
      | JArr [] | JStr EmptyString => Ok []
      (* [template_parameters[name]] fails for the elements of a list or
         the characters of a string; numbers and booleans are not iterable *)
      | _ => Err (TypeError "template parameters are not a dict")
      end
  end.

(** One answer typed at a prompt helper. *)
Inductive Answer : Type :=
| AChoice (ix : nat)      (* [prompt_choice_list] *)
| AText (s : string)      (* [prompt] and [prompt_pass] *)
| AInt (z : Z)            (* [prompt_int] *)
| ABool (b : bool).       (* [prompt_t_f] *)

Definition no_input : py_error := TypeError "no more input".

(** The [while True] loop for one parameter: the value stored into
    [result] (if any) and the answers left. Every iteration reads one answer. *)
Fixpoint prompt_loop (param_type allowed_values : json) (answers : list Answer)
    : result (option json * list Answer) :=
  match answers with
  | [] => Err no_input
  | a :: rest =>
      match allowed_values with
      | JNull =>
          match param_type, a with
          | JStr "securestring", AText value =>
              if Nat.ltb 0 (String.length value) then Ok (None, rest)
              else prompt_loop param_type allowed_values rest
          | JStr "int", AInt int_value => Ok (Some (JInt int_value), rest)
          | JStr "bool", ABool value => Ok (Some (JBool value), rest)
          | JStr "securestring", _ | JStr "int", _ | JStr "bool", _ =>
              Err (TypeError "unexpected answer")
          | _, AText value =>
              if Nat.ltb 0 (String.length value) then Ok (None, rest)
              else prompt_loop param_type allowed_values rest
          | _, _ => Err (TypeError "unexpected answer")
          end
      | JArr vals =>
          match a with
          | AChoice ix =>
              v <- py_index vals ix ;;
              Ok (Some v, rest)
          | _ => Err (TypeError "unexpected answer")
          end
      (* a string offers its characters *)
      | JStr s =>
          match a with
          | AChoice ix =>
              match String.get ix s with
              | Some c => Ok (Some (JStr (String c EmptyString)), rest)
              | None => Err (TypeError "string index out of range")
              end
          | _ => Err (TypeError "unexpected answer")
          end
      (* a dict offers its keys, but is then indexed by position *)
      | JObj _ =>
          match a with
          | AChoice ix => Err (KeyError (NilZero.string_of_uint (Nat.to_uint ix)))
          | _ => Err (TypeError "unexpected answer")
          end
      | _ => Err (TypeError "object is not iterable")
      end
  end.

(** The [for] loop of [_prompt_for_parameters], building [result]. *)
Fixpoint prompt_params (missing_parameters : dict json) (result_ : dict json)
    (answers : list Answer) : result (dict json * list Answer) :=
  match missing_parameters with
  | [] => Ok (result_, answers)
  | (param_name, param) :: rest =>
      param_type <- json_get param "type" (JStr "string") ;;
      metadata <- json_get param "metadata" JNull ;;
      _ <- (match metadata with
            | JNull => Ok (JStr "Missing description")
            | _ => json_get metadata "description" (JStr "Missing description")
            end) ;;
      allowed_values <- json_get param "allowedValues" JNull ;;
      r <- prompt_loop param_type allowed_values answers ;;
      let '(stored, answers) := r in
      let result_ := match stored with
                     | Some v => dict_set result_ param_name v
                     | None => result_
                     end in
      prompt_params rest result_ answers
  end.

(** [_prompt_for_parameters]: the mapping it returns and the answers left. *)
Definition _prompt_for_parameters (missing_parameters : dict json) (answers : list Answer)
    : result (dict json * list Answer) :=
  r <- prompt_params missing_parameters [] answers ;;
  let '(_, answers) := r in
  Ok ([], answers).

(** [parameters[param_name] = prompt_parameters[param_name]] for each prompted name. *)
Fixpoint apply_prompted (parameters : json) (prompt_parameters : dict json) : result json :=
  match prompt_parameters with
  | [] => Ok parameters
  | (k, v) :: rest =>
      match parameters with
      | JObj d => apply_prompted (JObj (dict_set d k v)) rest
      | _ => Err (TypeError "object does not support item assignment")
      end
  end.

(** The parameters [_deploy_arm_template_core] puts into [DeploymentProperties]. *)
Definition deployment_parameters (parameter_list : option (list json)) (template : json)
    (answers : list Answer) : result json :=
  parameters <- _merge_parameters parameter_list ;;
  missing <- _find_missing_parameters parameters template ;;
  if Nat.ltb 0 (length missing) then
    r <- _prompt_for_parameters missing answers ;;
    apply_prompted parameters (fst r)
  else Ok parameters.

(** ** [_deploy_arm_template_core] *)

Record DeploymentProperties := {
  dp_template : json;
  dp_template_link : option string;
  dp_parameters : json;
  dp_mode : string
}.

(** The call made on [smc.deployments]. *)
Inductive DeploymentCall : Type :=
| DeployValidate (resource_group_name : string) (deployment_name : option string)
    (properties : DeploymentProperties)
| DeployCreateOrUpdate (resource_group_name : string) (deployment_name : option string)
    (properties : DeploymentProperties).

Definition _deploy_arm_template_core (get_file_json : string -> json)
    (resource_group_name : string) (template_file template_uri deployment_name : option string)
    (parameter_list : option (list json)) (mode : string) (validate_only : bool)
    (answers : list Answer) : result DeploymentCall :=
  if Bool.eqb (truthy template_uri) (truthy template_file) then
    Err (CLIError "please provide either template file path or uri, but not both")
  else
    let '(template, template_link) :=
      if truthy template_uri then (JNull, Some (opt_str template_uri))
      else (get_file_json (opt_str template_file), None) in
    parameters <- deployment_parameters parameter_list template answers ;;
    let properties := {| dp_template := template; dp_template_link := template_link;
                         dp_parameters := parameters; dp_mode := mode |} in
    Ok (if validate_only then DeployValidate resource_group_name deployment_name properties
        else DeployCreateOrUpdate resource_group_name deployment_name properties).

(** ** [get_resource_types_completion_list]; providers come with their namespace *)

Definition get_resource_types_completion_list (providers : list (string * Provider)) : list string :=
  flat_map (fun p => map (fun r => fst p ++ "/" ++ resource_type r) (resource_types (snd p)))
           providers.

(** ** [create_lock], [delete_lock], [list_locks]: the client call they make *)

Inductive LockCall : Type :=
| AtSubscriptionLevel
| AtResourceGroupLevel (resource_group_name : string)
| AtResourceLevel (resource_group_name : string) (resource_provider_namespace : option string)
    (parent_resource_path : option string) (resource_type_ : option string)
    (resource_name : string).

(** The dispatch on the validated scope; [parent] is what each function passes. *)
Definition lock_call (lock_resource : lock_scope) (parent : option string) : LockCall :=
  match lock_resource with
  | (None, _, _, _) => AtSubscriptionLevel
  | (Some g, None, _, _) => AtResourceGroupLevel g
  | (Some g, Some n, ns, ty) => AtResourceLevel g ns parent ty n
  end.

(** A double quote character. *)
Definition dq : string := String (ascii_of_nat 34) EmptyString.

(** [parent_resource_path or ''] *)
Definition or_empty (s : option string) : string :=
  if truthy s then opt_str s else EmptyString.

Definition create_lock (name : string) (resource_group_name resource_provider_namespace
    parent_resource_path resource_type_ resource_name level notes : option string)
    : result (LockCall * ManagementLockObject) :=
  if negb (match level with Some l => String.eqb l "ReadOnly" | None => false end)
     && negb (match level with Some l => String.eqb l "CanNotDelete" | None => false end) then
    Err (CLIError ("--level must be one of " ++ dq ++ "ReadOnly" ++ dq ++ " or "
                   ++ dq ++ "CanNotDelete" ++ dq))
  else
    let parameters := {| lock_level := level; lock_notes := notes; lock_name := Some name;
                         lock_id := None; lock_type := None; lock_extra := [] |} in
    lock_resource <- _validate_lock_params resource_group_name resource_provider_namespace
                       parent_resource_path resource_type_ resource_name ;;
    Ok (lock_call lock_resource (Some (or_empty parent_resource_path)), parameters).

Definition delete_lock (name : string) (resource_group_name resource_provider_namespace
    parent_resource_path resource_type_ resource_name : option string) : result LockCall :=
  lock_resource <- _validate_lock_params resource_group_name resource_provider_namespace
                     parent_resource_path resource_type_ resource_name ;;
  Ok (lock_call lock_resource (Some (or_empty parent_resource_path))).

Definition list_locks (resource_group_name resource_provider_namespace
    parent_resource_path resource_type_ resource_name : option string) : result LockCall :=
  lock_resource <- _validate_lock_params resource_group_name resource_provider_namespace
                     parent_resource_path resource_type_ resource_name ;;
  Ok (lock_call lock_resource parent_resource_path).

(** ** Resource links *)

Record ResourceLinkProperties := {
  rl_target_id : option string;
  rl_notes : option string
}.

(** [create_resource_link]: the links held by the service afterwards. *)
Definition create_resource_link (links : dict ResourceLinkProperties) (link_id target_id : string)
    (notes : option string) : dict ResourceLinkProperties :=
  dict_set links link_id {| rl_target_id := Some target_id; rl_notes := notes |}.

Definition update_resource_link (links : dict ResourceLinkProperties) (link_id : string)
    (target_id notes : option string) : result (dict ResourceLinkProperties) :=
  match dict_get links link_id with
  | None => Err (CLIError ("The resource link '" ++ link_id ++ "' could not be found."))
  | Some params =>
      let properties := {| rl_target_id := match target_id with
                                           | Some t => Some t
                                           | None => rl_target_id params
                                           end;
                           rl_notes := match notes with
                                       | Some n => Some n
                                       | None => rl_notes params
                                       end |} in
      Ok (dict_set links link_id properties)
  end.

(** ** [update_policy_definition] *)

Record PolicyDefinition := {
  pd_policy_rule : json;
  pd_description : option string;
  pd_display_name : option string
}.

Section PolicyDefinitions.

(** [os.path.exists], [get_file_json] and [shell_safe_json_parse]. *)
Variable path_exists : string -> bool.
Variable get_file_json : string -> json.
Variable shell_safe_json_parse : string -> result json.

Definition load_rules (rules : string) : result json :=
  if path_exists rules then Ok (get_file_json rules) else shell_safe_json_parse rules.

(** The definitions held by the service afterwards, and the definition sent. *)
Definition update_policy_definition (definitions : dict PolicyDefinition)
    (policy_definition_name : string) (rules display_name description : option string)
    : result (dict PolicyDefinition * PolicyDefinition) :=
  rules <- (match rules with
            | Some r => load_rules r
            | None => Ok JNull
            end) ;;
  match dict_get definitions policy_definition_name with
  | None => Err (CLIError ("The policy definition '" ++ policy_definition_name
                           ++ "' could not be found."))
  | Some definition =>
      let parameters :=
        {| pd_policy_rule := match rules with JNull => pd_policy_rule definition | r => r end;
           pd_description := match description with
                             | Some d => Some d
                             | None => pd_description definition
                             end;
           pd_display_name := match display_name with
                              | Some d => Some d
                              | None => pd_display_name definition
                              end |} in
      Ok (dict_set definitions policy_definition_name parameters, parameters)
  end.

End PolicyDefinitions.

(** ** [list_policy_assignment] *)

Record PolicyAssignment := {
  pa_name : string;
  pa_scope : string
}.

Fixpoint drop_slashes (l : list ascii) : list ascii :=
  match l with
  | c :: r => if Ascii.eqb c slash then drop_slashes r else l
  | [] => []
  end.

(** [s.strip('/')] *)
Definition strip_slashes (s : string) : string :=
  string_of_list_ascii (rev (drop_slashes (rev (drop_slashes (list_ascii_of_string s))))).

Section PolicyAssignments.

(** [is_valid_resource_id], the subscription of the client, and the three
    listing calls of [policy_client.policy_assignments]. *)
Variable is_valid_resource_id : string -> bool.
Variable subscription_id : string.
Variable list_for_resource_group : string -> list PolicyAssignment.
Variable list_for_resource : string -> string -> string -> string -> string -> list PolicyAssignment.
Variable list_all : list PolicyAssignment.

Definition list_policy_assignment (disable_scope_strict_match : bool)
    (resource_group_name scope : option string) : result (list PolicyAssignment) :=
  rs <- (if truthy scope && negb (is_valid_resource_id (opt_str scope)) then
           let parts := split_slash (strip_slashes (opt_str scope)) in
           if Nat.eqb (length parts) 4 then Ok (Some (nth 3 parts EmptyString), None)
           else if Nat.eqb (length parts) 2 then
             (* rarely used, but still verify *)
             if negb (String.eqb (lower (nth 1 parts EmptyString)) (lower subscription_id)) then
               Err (CLIError "Please use current active subscription's id")
             else Ok (resource_group_name, None)
           else
             Err (CLIError ("Invalid scope '" ++ opt_str scope
                            ++ "', it should point to a resource group or a resource"))
         else Ok (resource_group_name, scope)) ;;
  let '(resource_group_name, scope) := rs in
  _scope <- _build_policy_scope subscription_id resource_group_name scope ;;
  result_ <-
    (if truthy resource_group_name then
       Ok (list_for_resource_group (opt_str resource_group_name))
     else if truthy scope then
       let id := parse_resource_id (opt_str scope) in
       parent_resource_path <-
         (if truthy (dict_get id "child_name") then
            t <- dict_index id "type" ;; n <- dict_index id "name" ;; Ok (t ++ "/" ++ n)
          else Ok EmptyString) ;;
       resource_type_ <- (if truthy (dict_get id "child_type")
                          then Ok (opt_str (dict_get id "child_type"))
                          else dict_index id "type") ;;
       resource_name <- (if truthy (dict_get id "child_name")
                         then Ok (opt_str (dict_get id "child_name"))
                         else dict_index id "name") ;;
       g <- dict_index id "resource_group" ;;
       ns <- dict_index id "namespace" ;;
       Ok (list_for_resource g ns parent_resource_path resource_type_ resource_name)
     else Ok list_all) ;;
  Ok (if disable_scope_strict_match then result_
      else filter (fun i => String.eqb (lower (opt_str _scope)) (lower (pa_scope i))) result_).

End PolicyAssignments.

(** ** [move_resource] *)

Fixpoint map_result {A B} (f : A -> result B) (l : list A) : result (list B) :=
  match l with
  | [] => Ok []
  | x :: r => y <- f x ;; ys <- map_result f r ;; Ok (y :: ys)
  end.

(** [len(set(xs))] *)
Definition set_size (xs : list string) : nat := length (nodup string_dec xs).

Section Move.

(** [is_valid_resource_id], [parse_resource_id], [resource_id(subscription=, resource_group=)]
    and the client's default subscription. *)
Variable is_valid_resource_id : string -> bool.
Variable parse : string -> dict string.
Variable resource_id_of : string -> string -> string.
Variable default_subscription : string.

Fixpoint parse_all (ids : list string) : result (list (dict string)) :=
  match ids with
  | [] => Ok []
  | i :: r =>
      if is_valid_resource_id i then
        rs <- parse_all r ;; Ok (parse i :: rs)
      else Err (CLIError ("Invalid id " ++ dq ++ i ++ dq ++ ", as it has no group or subscription field"))
  end.

(** The arguments of [rcf.resources.move_resources]: source group, ids, target. *)
Definition move_resource (ids : list string) (destination_group : string)
    (destination_subscription_id : option string) : result (string * list string * string) :=
  resources <- parse_all ids ;;
  subscriptions <- map_result (fun r => dict_index r "subscription") resources ;;
  if Nat.ltb 1 (set_size subscriptions) then
    Err (CLIError "All resources should be under the same subscription")
  else
    groups <- map_result (fun r => dict_index r "resource_group") resources ;;
    if Nat.ltb 1 (set_size groups) then
      Err (CLIError "All resources should be under the same group")
    else
      let target := resource_id_of (if truthy destination_subscription_id
                                    then opt_str destination_subscription_id
                                    else default_subscription) destination_group in
      first <- py_index resources 0 ;;
      g <- dict_index first "resource_group" ;;
      Ok (g, ids, target).

End Move.

(** ** [_ResourceUtils.get_resource] and [_ResourceUtils.tag] *)

Record GenericResource := {
  gr_id : option string;
  gr_name : option string;
  gr_location : option string;
  gr_tags : option (dict string);
  gr_plan : option string;
  gr_properties : json;
  gr_kind : option string;
  gr_managed_by : option string;
  gr_sku : option string;
  gr_identity : option string
}.

Inductive ResourceAddress : Type :=
| ById (resource_id : string)
| ByParts (resource_group_name resource_provider_namespace : option string)
    (parent_resource_path : string) (resource_type_ resource_name : option string).

(** How the methods address the resource: by id when there is one. *)
Definition ru_address (self : ResourceUtils) : ResourceAddress :=
  if truthy (ru_resource_id self) then ById (opt_str (ru_resource_id self))
  else ByParts (ru_resource_group_name self) (ru_resource_provider_namespace self)
               (or_empty (ru_parent_resource_path self)) (ru_resource_type self)
               (ru_resource_name self).

(** [get] is [rcf.resources.get_by_id] / [rcf.resources.get]. *)
Definition get_resource (get : ResourceAddress -> string -> result GenericResource)
    (self : ResourceUtils) : result GenericResource :=
  get (ru_address self) (ru_api_version self).

(** The arguments of the [create_or_update] call [tag] makes. *)
Definition tag (get : ResourceAddress -> string -> result GenericResource)
    (self : ResourceUtils) (tags : option (dict string))
    : result (ResourceAddress * string * GenericResource) :=
  resource <- get_resource get self ;;
  let parameters := {| gr_id := None; gr_name := None;
                       gr_location := gr_location resource; gr_tags := tags;
                       gr_plan := gr_plan resource; gr_properties := gr_properties resource;
                       gr_kind := gr_kind resource; gr_managed_by := gr_managed_by resource;
                       gr_sku := gr_sku resource; gr_identity := gr_identity resource |} in
  Ok (ru_address self, ru_api_version self, parameters).

(** * Properties *)

(** ** Helper definitions for the statements *)

(** The text has no ['/']: one segment of a path or an id. *)
Fixpoint no_slash (s : string) : bool :=
  match s with
  | EmptyString => true
  | String c r => negb (Ascii.eqb c slash) && no_slash r
  end.

(** A version is a preview one when its lowercased text contains ['preview']. *)
Definition is_preview (v : string) : bool := contains "preview" (lower v).

(** The type looked up at the provider: the first segment of a non-empty
    parent path, otherwise the resource type. *)
Definition requested_type (parent_resource_path : option string) (resource_type_ : string)
    : string :=
  match parent_resource_path with
  | Some p => if String.eqb p EmptyString then resource_type_ else hd EmptyString (split_slash p)
  | None => resource_type_
  end.

(** One step of reading the documents in order: a document that defines
    [k] replaces what earlier documents gave it. *)
Definition later_value (k : string) (acc : option json) (o : list (string * json)) : option json :=
  match dict_get o k with
  | Some v => Some v
  | None => acc
  end.

(** The value of [k] in the last document of [objs] that defines it. *)
Definition last_defined (objs : list (list (string * json))) (k : string) : option json :=
  fold_left (later_value k) objs None.

(** The name and value of a tag filter: the first key of a dict, or a bare
    string with an empty value. *)
Definition tag_name_value (tg : Tag) : option (string * string) :=
  match tg with
  | TagDict ((k, v) :: _) => Some (k, v)
  | TagDict [] => None
  | TagStr s => Some (s, EmptyString)
  end.

(** The predicate for an optional field, present when the field is non-empty. *)
Definition pred_if (v : option string) (mk : string -> string) : list string :=
  if truthy v then [mk (opt_str v)] else [].

(** The type predicate: ['NS/T'] from a namespace and a type, else the type as given. *)
Definition type_pred (ns ty : option string) : list string :=
  if truthy ty then
    if truthy ns then ["resourceType eq '" ++ opt_str ns ++ "/" ++ opt_str ty ++ "'"]
    else ["resourceType eq '" ++ opt_str ty ++ "'"]
  else [].

(** The predicates selected for resource group, name, location and type. *)
Definition field_preds (rg ns ty name location : option string) : list string :=
  pred_if rg (fun g => "resourceGroup eq '" ++ g ++ "'")
  ++ pred_if name (fun n => "name eq '" ++ n ++ "'")
  ++ pred_if location (fun l => "location eq '" ++ l ++ "'")
  ++ type_pred ns ty.

(** A type with an embedded separator: a non-empty first segment, a
    slash, and one more character that is not a slash. *)
Definition embedded_ns_type (s : string) : Prop :=
  exists a c b, s = a ++ String slash (String c b) /\ a <> EmptyString
                /\ no_slash a = true /\ c <> slash.

(** [x is None] for parsed JSON. *)
Definition json_is_null (j : json) : bool :=
  match j with JNull => true | _ => false end.

(** [j.get(k)] of a dict, [None] for anything else. *)
Definition json_field (j : json) (k : string) : json :=
  match j with
  | JObj o => dict_get_default o k JNull
  | _ => JNull
  end.

(** A template parameter is still missing: it has no default value and
    the supplied parameters do not give it. *)
Definition still_missing (parameters : json) (e : string * json) : bool :=
  json_is_null (json_field (snd e) "defaultValue") && json_is_null (json_field parameters (fst e)).

(** The call [_deploy_arm_template_core] makes for [validate_only]. *)
Definition deploy_call (validate_only : bool) (resource_group_name : string)
    (deployment_name : option string) (properties : DeploymentProperties) : DeploymentCall :=
  if validate_only then DeployValidate resource_group_name deployment_name properties
  else DeployCreateOrUpdate resource_group_name deployment_name properties.

(** ** Sample inputs *)

Definition sites_type : ProviderResourceType :=
  {| resource_type := "sites"; api_versions := ["2016-03-01-preview"; "2015-08-01"] |}.

Definition web_provider : Provider :=
  {| resource_types := [sites_type;
                        {| resource_type := "serverfarms"; api_versions := ["2015-08-01"] |}] |}.

Definition sample_rcf : Rcf :=
  {| providers_get := fun ns => if String.eqb ns "Microsoft.Web" then Some web_provider else None |}.

Definition sample_lock : ManagementLockObject :=
  {| lock_level := Some "ReadOnly"; lock_notes := Some "created by ops"; lock_name := Some "lock1";
     lock_id := None; lock_type := None; lock_extra := [] |}.

Definition sample_store : LockStore :=
  {| sub_locks := [("lock1", sample_lock)]; rg_locks := [] |}.

(** ** Lemmas on strings and lists *)

Lemma split_slash_no_slash (a : string) :
  no_slash a = true -> split_slash a = [a].
Proof.
  induction a as [|c a IH]; simpl; [reflexivity|].
  intros H. apply andb_prop in H as [Hc Ha].
  rewrite (IH Ha). apply negb_true_iff in Hc. rewrite Hc. reflexivity.
Qed.

Lemma split_slash_app (a r : string) :
  no_slash a = true -> split_slash (a ++ String slash r) = a :: split_slash r.
Proof.
  induction a as [|c a IH]; simpl; [reflexivity|].
  intros H. apply andb_prop in H as [Hc Ha].
  rewrite (IH Ha). apply negb_true_iff in Hc. rewrite Hc. reflexivity.
Qed.

Lemma split_slash_concat (l : list string) :
  l <> [] -> Forall (fun s => no_slash s = true) l -> split_slash (String.concat "/" l) = l.
Proof.
  induction l as [|a l IH]; intros Hne Hall; [congruence|].
  inversion Hall as [|? ? Ha Hl]; subst.
  destruct l as [|b l].
  - simpl. apply split_slash_no_slash; assumption.
  - change (String.concat "/" (a :: b :: l)) with (a ++ String slash (String.concat "/" (b :: l))).
    rewrite split_slash_app by assumption. rewrite IH by (congruence || assumption). reflexivity.
Qed.

Lemma filter_first {A} (f : A -> bool) (l : list A) (v : A) (rest : list A) :
  filter f l = v :: rest ->
  exists pre post, l = app pre (v :: post) /\ Forall (fun x => f x = false) pre /\ f v = true.
Proof.
  revert rest. induction l as [|x l IH]; simpl; intros rest H; [discriminate|].
  destruct (f x) eqn:Fx.
  - injection H as <- _. exists [], l. auto.
  - destruct (IH rest H) as (pre & post & -> & Hpre & Hv).
    exists (x :: pre), post. auto.
Qed.

Lemma filter_none {A} (f : A -> bool) (l : list A) :
  filter f l = [] -> Forall (fun x => f x = false) l.
Proof.
  induction l as [|x l IH]; simpl; intros H; [constructor|].
  destruct (f x) eqn:Fx; [discriminate|]. constructor; auto.
Qed.

Lemma resource_type_str_requested (parent : option string) (ty : string) :
  match parent with
  | Some p => if truthy (Some p) then hd EmptyString (split_slash p) else ty
  | None => ty
  end = requested_type parent ty.
Proof. destruct parent as [[|c p]|]; reflexivity. Qed.

(** ** C1: the first non-preview version, else the first version *)

(** C1. When the provider declares exactly one resource type matching the
    requested type case-insensitively, and that type lists API versions,
    [_resolve_api_version] returns the first version whose lowercased text
    does not contain ['preview']; when every version contains it, the
    first version. *)
Theorem resolve_api_version_first_non_preview (rcf : Rcf) (ns : string)
    (parent : option string) (ty : string) (provider : Provider) (t : ProviderResourceType)
    (Hprov : providers_get rcf ns = Some provider)
    (Hone : filter (fun t' => String.eqb (lower (resource_type t'))
                                         (lower (requested_type parent ty)))
                   (resource_types provider) = [t])
    (Hvers : api_versions t <> []) :
  exists r, _resolve_api_version rcf ns parent ty = Ok r /\
    ((exists pre post, api_versions t = app pre (r :: post) /\
                       Forall (fun v => is_preview v = true) pre /\ is_preview r = false)
     \/ (Forall (fun v => is_preview v = true) (api_versions t)
         /\ hd_error (api_versions t) = Some r)).
Proof.
  unfold _resolve_api_version. rewrite Hprov. cbv zeta.
  rewrite resource_type_str_requested, Hone.
  destruct (api_versions t) as [|v0 vs] eqn:Ev; [congruence|].
  destruct (filter (fun v => negb (contains "preview" (lower v))) (v0 :: vs)) as [|v rest] eqn:F.
  - exists v0. split; [reflexivity|]. right. split; [|reflexivity].
    apply filter_none in F. eapply Forall_impl; [|exact F].
    intros x Hx. unfold is_preview. apply negb_false_iff. exact Hx.
  - exists v. split; [reflexivity|]. left.
    destruct (filter_first _ _ _ _ F) as (pre & post & Hl & Hpre & Hv).
    exists pre, post. split; [exact Hl|]. split.
    + eapply Forall_impl; [|exact Hpre]. intros x Hx. apply negb_false_iff. exact Hx.
    + apply negb_true_iff. exact Hv.
Qed.

(** ** C2: decomposition of a resource id with one child level *)

Lemma child_id_concat (sub rg ns ta n1 tb n2 : string) :
  "/subscriptions/" ++ sub ++ "/resourceGroups/" ++ rg ++ "/providers/" ++ ns
    ++ "/" ++ ta ++ "/" ++ n1 ++ "/" ++ tb ++ "/" ++ n2
  = String.concat "/" [""; "subscriptions"; sub; "resourceGroups"; rg; "providers"; ns;
                       ta; n1; tb; n2].
Proof. reflexivity. Qed.

Lemma namespaced_child_id_concat (sub rg ns ta n1 ns2 tb n2 : string) :
  "/subscriptions/" ++ sub ++ "/resourceGroups/" ++ rg ++ "/providers/" ++ ns
    ++ "/" ++ ta ++ "/" ++ n1 ++ "/providers/" ++ ns2 ++ "/" ++ tb ++ "/" ++ n2
  = String.concat "/" [""; "subscriptions"; sub; "resourceGroups"; rg; "providers"; ns;
                       ta; n1; "providers"; ns2; tb; n2].
Proof. reflexivity. Qed.

Ltac segments_ok :=
  repeat constructor; assumption.

(** C2. For an id [.../providers/NS/TypeA/name1/TypeB/name2] the resolver
    looks the version up with namespace [NS], parent ['TypeA/name1'] and
    type [TypeB]; for [.../providers/NS/TypeA/name1/providers/NS2/TypeB/name2]
    it uses namespace [NS2] and the empty parent. *)
Theorem resolve_api_version_by_id_child (rcf : Rcf) (sub rg ns ta n1 ns2 tb n2 : string)
    (Hsub : no_slash sub = true) (Hrg : no_slash rg = true) (Hns : no_slash ns = true)
    (Hta : no_slash ta = true) (Hn1 : no_slash n1 = true) (Hns2 : no_slash ns2 = true)
    (Htb : no_slash tb = true) (Hn2 : no_slash n2 = true) (Htb_ne : tb <> EmptyString) :
  _resolve_api_version_by_id rcf
    ("/subscriptions/" ++ sub ++ "/resourceGroups/" ++ rg ++ "/providers/" ++ ns
       ++ "/" ++ ta ++ "/" ++ n1 ++ "/" ++ tb ++ "/" ++ n2)
  = _resolve_api_version rcf ns (Some (ta ++ "/" ++ n1)) tb
  /\
  _resolve_api_version_by_id rcf
    ("/subscriptions/" ++ sub ++ "/resourceGroups/" ++ rg ++ "/providers/" ++ ns
       ++ "/" ++ ta ++ "/" ++ n1 ++ "/providers/" ++ ns2 ++ "/" ++ tb ++ "/" ++ n2)
  = _resolve_api_version rcf ns2 (Some EmptyString) tb.
Proof.
  split; unfold _resolve_api_version_by_id, parse_resource_id.
  - rewrite child_id_concat, split_slash_concat by (discriminate || segments_ok).
    destruct tb as [|c tb]; [congruence|]. reflexivity.
  - rewrite namespaced_child_id_concat, split_slash_concat by (discriminate || segments_ok).
    destruct tb as [|c tb]; [congruence|]. reflexivity.
Qed.

(** ** Dict lemmas *)

Lemma dict_get_set {V} (d : dict V) (k k' : string) (v : V) :
  dict_get (dict_set d k v) k' = if String.eqb k' k then Some v else dict_get d k'.
Proof.
  induction d as [|[k1 v1] r IH]; simpl.
  - reflexivity.
  - destruct (String.eqb_spec k k1) as [->|Hne]; simpl.
    + destruct (String.eqb k' k1); reflexivity.
    + rewrite IH. destruct (String.eqb_spec k' k1) as [->|Hne'].
      * destruct (String.eqb_spec k1 k); [congruence|reflexivity].
      * reflexivity.
Qed.

Lemma dict_get_set_same {V} (d : dict V) (k : string) (v : V) :
  dict_get (dict_set d k v) k = Some v.
Proof. rewrite dict_get_set, String.eqb_refl. reflexivity. Qed.

(** ** C3: lock fields without their prerequisite are rejected *)

(** C3. [_validate_lock_params] raises when a resource type is given
    without a resource group, and when a resource name is given while the
    resource type is missing or empty. *)
Theorem validate_lock_params_rejects (rg ns parent ty nm : option string) :
  (rg = None -> ty <> None -> exists e, _validate_lock_params rg ns parent ty nm = Err e)
  /\ (nm <> None -> (ty = None \/ ty = Some EmptyString) ->
      exists e, _validate_lock_params rg ns parent ty nm = Err e).
Proof.
  split.
  - intros -> Hty. destruct ty as [t|]; [|congruence].
    destruct nm; simpl; eexists; reflexivity.
  - intros Hnm Hty. destruct nm as [n|]; [|congruence].
    destruct rg as [g|]; simpl; [|eexists; reflexivity].
    destruct Hty as [->| ->]; eexists; reflexivity.
Qed.

(** ** C8: policy scope *)

(** C8. [_build_policy_scope] raises when both a scope and a resource
    group are given; with only a resource group it returns
    ['/subscriptions/<id>/resourceGroups/<group>'], with neither
    ['/subscriptions/<id>'], and with only a scope that scope. *)
Theorem build_policy_scope_cases (sub : string) (rg scope : option string) :
  (truthy scope = true -> truthy rg = true -> exists e, _build_policy_scope sub rg scope = Err e)
  /\ (forall g, truthy scope = false -> rg = Some g -> g <> EmptyString ->
      _build_policy_scope sub rg scope
      = Ok (Some ("/subscriptions/" ++ sub ++ "/resourceGroups/" ++ g)))
  /\ (truthy scope = false -> truthy rg = false ->
      _build_policy_scope sub rg scope = Ok (Some ("/subscriptions/" ++ sub)))
  /\ (forall sc, scope = Some sc -> sc <> EmptyString -> truthy rg = false ->
      _build_policy_scope sub rg scope = Ok (Some sc)).
Proof.
  unfold _build_policy_scope. repeat split.
  - intros -> ->. eexists; reflexivity.
  - intros g Hs -> Hg. rewrite Hs. destruct g; [congruence|reflexivity].
  - intros -> ->. reflexivity.
  - intros sc -> Hsc Hrg. rewrite Hrg. destruct sc; [congruence|reflexivity].
Qed.

(** ** C9: an embedded namespace is split out of the resource type *)

Lemma append_empty_r (s : string) : s ++ EmptyString = s.
Proof. induction s as [|c s IH]; simpl; [reflexivity|]. rewrite IH. reflexivity. Qed.

Lemma split_slash_app_sep (a r : string) :
  no_slash a = true -> split_slash (a ++ "/" ++ r) = a :: split_slash r.
Proof. exact (split_slash_app a r). Qed.

Lemma split_two_segments (a b tail : string) :
  no_slash a = true -> no_slash b = true ->
  (tail = EmptyString \/ exists c, tail = "/" ++ c) ->
  exists rest, split_slash (a ++ "/" ++ b ++ tail) = a :: b :: rest.
Proof.
  intros Ha Hb [-> | [c ->]]; rewrite split_slash_app_sep by assumption.
  - exists []. rewrite append_empty_r, split_slash_no_slash by assumption. reflexivity.
  - rewrite split_slash_app_sep by assumption. eexists; reflexivity.
Qed.

(** C9 (as stated: refuted). Without a resource group the type
    ['NS/T'] is not split: [_validate_lock_params] raises instead of
    returning ['NS'] and ['T']. *)
Lemma validate_lock_params_no_group_raises :
  ~ (exists sc, _validate_lock_params None None None (Some "NS/T") (Some "lockedVm") = Ok sc).
Proof. intros [sc H]. discriminate H. Qed.

(** C9 (amended). With a resource group and a resource name given and no
    namespace, [_validate_lock_params] returns the first segment of a
    ['NS/T...'] type as the namespace and the second as the type, whatever
    the parent path; without a resource group, or without a resource name,
    it raises a [CLIError] instead of splitting. With no namespace and no
    parent path, [_ResourceUtils.__init__] splits the type the same way and
    resolves the API version with those two parts. *)
Theorem embedded_namespace_split (rcf : Rcf) (g n a b tail : string)
    (ns0 parent : option string)
    (Ha : no_slash a = true) (Hb : no_slash b = true)
    (Htail : tail = EmptyString \/ exists c, tail = "/" ++ c) :
  (forall p : option string,
     _validate_lock_params (Some g) None p (Some (a ++ "/" ++ b ++ tail)) (Some n)
     = Ok (Some g, Some n, Some a, Some b))
  /\ (forall (ns p nm : option string),
        exists msg, _validate_lock_params None ns p (Some (a ++ "/" ++ b ++ tail)) nm
                    = Err (CLIError msg))
  /\ (forall (ns p : option string),
        exists msg, _validate_lock_params (Some g) ns p (Some (a ++ "/" ++ b ++ tail)) None
                    = Err (CLIError msg))
  /\ (truthy ns0 = false -> truthy parent = false ->
      _ResourceUtils_init rcf (Some g) ns0 parent (Some (a ++ "/" ++ b ++ tail)) (Some n)
        None None
      = (v <- _resolve_api_version rcf a parent b ;;
         Ok {| ru_resource_group_name := Some g; ru_resource_provider_namespace := Some a;
               ru_parent_resource_path := parent; ru_resource_type := Some b;
               ru_resource_name := Some n; ru_resource_id := None; ru_api_version := v |})).
Proof.
  destruct (split_two_segments a b tail Ha Hb Htail) as [rest Hsplit].
  assert (Hne : (a ++ "/" ++ b ++ tail) <> EmptyString) by (destruct a; discriminate).
  split; [|split; [|split]].
  - intros p. unfold _validate_lock_params.
    destruct (a ++ "/" ++ b ++ tail) as [|c s] eqn:E; [congruence|].
    rewrite Hsplit. reflexivity.
  - intros ns p nm. unfold _validate_lock_params.
    destruct nm; simpl; eexists; reflexivity.
  - intros ns p. unfold _validate_lock_params. simpl. eexists; reflexivity.
  - intros Hns0 Hparent.
    unfold _ResourceUtils_init, split_embedded_namespace.
    rewrite Hns0, Hparent.
    destruct (a ++ "/" ++ b ++ tail) as [|c s] eqn:E; [congruence|].
    simpl truthy. cbv beta iota zeta. rewrite Hsplit. reflexivity.
Qed.

(** ** C10: [update_lock] never changes the notes of a lock *)

(** C10. When [update_lock] is given new notes, the lock it sends back
    keeps the fetched lock's notes: the value lands in an undeclared
    attribute [nodes], and only the level is updated. *)
Theorem update_lock_keeps_notes (store : LockStore) (name : string)
    (rg level notes : option string) (sent : ManagementLockObject) (store' : LockStore)
    (Hnotes : notes <> None)
    (Hup : update_lock store name rg level notes = Ok (sent, store')) :
  exists fetched,
    dict_get (match rg with
              | None => sub_locks store
              | Some g => dict_get_default (rg_locks store) g []
              end) name = Some fetched
    /\ lock_notes sent = lock_notes fetched
    /\ lock_level sent = match level with Some l => Some l | None => lock_level fetched end
    /\ dict_get (lock_extra sent) "nodes" = notes.
Proof.
  destruct notes as [nt|]; [|congruence].
  unfold update_lock in Hup.
  destruct rg as [g|];
    [destruct (dict_get (dict_get_default (rg_locks store) g []) name) as [fetched|] eqn:F
    |destruct (dict_get (sub_locks store) name) as [fetched|] eqn:F];
    try discriminate;
    injection Hup as <- _; exists fetched; (split; [reflexivity|]);
    destruct level; simpl; rewrite ?dict_get_set_same; auto.
Qed.

(** ** C4: merging parameter documents, later documents win *)

Lemma dict_get_not_in {V} (d : dict V) (k : string) :
  ~ In k (map fst d) -> dict_get d k = None.
Proof.
  induction d as [|[k1 v1] d IH]; simpl; intros H; [reflexivity|].
  destruct (String.eqb_spec k k1) as [->|_]; [exfalso; auto|]. apply IH. auto.
Qed.

Lemma dict_get_update {V} (d o : dict V) (k : string) :
  NoDup (map fst o) ->
  dict_get (dict_update d o) k = match dict_get o k with Some v => Some v | None => dict_get d k end.
Proof.
  unfold dict_update. revert d.
  induction o as [|[k1 v1] o IH]; intros d Hnd; simpl; [reflexivity|].
  inversion Hnd as [|? ? Hk1 Hnd']; subst.
  rewrite IH by assumption. rewrite dict_get_set.
  destruct (String.eqb_spec k k1) as [->|_].
  - rewrite dict_get_not_in by assumption. reflexivity.
  - reflexivity.
Qed.

Lemma merge_loop_objects (docs : list json) (objs : list (list (string * json)))
    (d : list (string * json)) :
  Forall2 (fun doc o => unwrap_parameters doc = Ok (JObj o)) docs objs ->
  Forall (fun o => NoDup (map fst o)) objs ->
  exists d', merge_loop (JObj d) docs = Ok (JObj d') /\
             forall k, dict_get d' k = fold_left (later_value k) objs (dict_get d k).
Proof.
  intros H2. revert d. induction H2 as [|doc o docs objs Hu H2 IH]; intros d Hwf.
  - exists d. split; [reflexivity|]. reflexivity.
  - inversion Hwf as [|? ? Hnd Hwf']; subst.
    simpl. rewrite Hu. simpl.
    destruct (IH (dict_update d o) Hwf') as (d' & Hm & Hk).
    exists d'. split; [exact Hm|].
    intros k. rewrite Hk, dict_get_update by assumption. reflexivity.
Qed.

(** C4. Merging parameter documents that are dicts (each possibly wrapped
    in a ['parameters'] envelope) reads them in list order: the merged
    value of every key is the one of the last document defining it. *)
Theorem merge_parameters_later_wins (docs : list json) (objs : list (list (string * json)))
    (Hne : docs <> [])
    (Hunwrap : Forall2 (fun doc o => unwrap_parameters doc = Ok (JObj o)) docs objs)
    (Hwf : Forall (fun o => NoDup (map fst o)) objs) :
  exists d, _merge_parameters (Some docs) = Ok (JObj d) /\
            forall k, dict_get d k = last_defined objs k.
Proof.
  destruct Hunwrap as [|doc o docs objs Hu Hrest]; [congruence|].
  inversion Hwf as [|? ? Hnd Hwf']; subst.
  unfold _merge_parameters. simpl. rewrite Hu. simpl.
  destruct (merge_loop_objects docs objs o Hrest Hwf') as (d & Hm & Hk).
  exists d. split; [exact Hm|].
  intros k. rewrite Hk. unfold last_defined.
  change (fold_left (later_value k) (o :: objs) None)
    with (fold_left (later_value k) objs (later_value k None o)).
  f_equal. unfold later_value. destruct (dict_get o k); reflexivity.
Qed.

(** ** C5: the prompted values are dropped *)

(** C5. Whatever the missing parameters and the answers typed,
    [_prompt_for_parameters] returns an empty mapping, so the parameters
    [_deploy_arm_template_core] deploys are exactly the merged documents. *)
Theorem prompt_for_parameters_discards :
  (forall missing answers d rest,
      _prompt_for_parameters missing answers = Ok (d, rest) -> d = [])
  /\ (forall parameter_list template answers p,
      deployment_parameters parameter_list template answers = Ok p ->
      _merge_parameters parameter_list = Ok p).
Proof.
  split.
  - intros missing answers d rest H. unfold _prompt_for_parameters in H.
    destruct (prompt_params missing [] answers) as [[res left]|e]; simpl in H; [|discriminate].
    injection H as <- _. reflexivity.
  - intros parameter_list template answers p H. unfold deployment_parameters in H.
    destruct (_merge_parameters parameter_list) as [params|e]; simpl in H; [|discriminate].
    destruct (_find_missing_parameters params template) as [missing|e]; simpl in H; [|discriminate].
    destruct (Nat.ltb 0 (length missing)); [|exact H].
    unfold _prompt_for_parameters in H.
    destruct (prompt_params missing [] answers) as [[res left]|e]; simpl in H; [|discriminate].
    exact H.
Qed.

(** The loop does collect the typed values; they are then dropped. *)
Example prompt_params_collects :
  prompt_params [("count", JObj [("type", JStr "int")])] [] [AInt 3]
  = Ok ([("count", JInt 3)], []).
Proof. reflexivity. Qed.

Example prompt_for_parameters_returns_empty :
  _prompt_for_parameters [("count", JObj [("type", JStr "int")])] [AInt 3] = Ok ([], []).
Proof. reflexivity. Qed.

(** ** C6 and C7: the OData filter *)

Lemma break_slash_app (a r : string) :
  no_slash a = true -> break_slash (a ++ String slash r) = (a, Some r).
Proof.
  induction a as [|c a IH]; simpl; [reflexivity|].
  intros H. apply andb_prop in H as [Hc Ha]. apply negb_true_iff in Hc.
  rewrite Hc, (IH Ha). reflexivity.
Qed.

Lemma re_match_ns_type_embedded (s : string) :
  embedded_ns_type s -> re_match_ns_type s = true.
Proof.
  intros (a & c & b & -> & Ha & Hns & Hc).
  unfold re_match_ns_type. rewrite break_slash_app by assumption.
  destruct (String.eqb_spec a EmptyString) as [|_]; [contradiction|].
  destruct (Ascii.eqb_spec c slash) as [|_]; [contradiction|]. reflexivity.
Qed.

Lemma last_char_star (prefix : string) : last_char (prefix ++ "*") = Some star.
Proof.
  induction prefix as [|c p IH]; [reflexivity|].
  change (last_char (String c (p ++ "*")) = Some star).
  destruct p as [|c' p]; [reflexivity|]. exact IH.
Qed.

Lemma drop_last_star (prefix : string) : drop_last (prefix ++ "*") = prefix.
Proof.
  unfold drop_last.
  assert (Hl : String.length (prefix ++ "*") - 1 = String.length prefix).
  { induction prefix as [|c p IH]; simpl; [reflexivity|]. rewrite <- IH.
    destruct (String.length (p ++ "*")) eqn:E; [|lia].
    destruct p; discriminate. }
  rewrite Hl. clear Hl.
  induction prefix as [|c p IH]; simpl; [reflexivity|]. rewrite IH. reflexivity.
Qed.

Lemma last_char_nonempty (s : string) : s <> EmptyString -> exists c, last_char s = Some c.
Proof.
  induction s as [|c s IH]; intros H; [congruence|].
  destruct s as [|c' s]; [exists c; reflexivity|].
  apply IH. discriminate.
Qed.

Lemma tag_fields (tg : Tag) (tn tv : string) :
  tag_name_value tg = Some (tn, tv) -> tn <> EmptyString ->
  tag_truthy (Some tg) = true
  /\ (match tg with TagDict d => py_index (map fst d) 0 | TagStr s => Ok s end) = Ok tn
  /\ (match tg with TagDict d => dict_index d tn | TagStr _ => Ok EmptyString end) = Ok tv.
Proof.
  destruct tg as [[|[k v] d]|s]; simpl; intros H Hne; try discriminate;
    injection H as <- <-.
  - unfold dict_index. simpl. rewrite String.eqb_refl. auto.
  - destruct s; [congruence|]. auto.
Qed.

(** The filters without a tag are exactly the field predicates. *)
Lemma odata_filters_no_tag (rg ns ty name location : option string) (base : list string) :
  odata_filters rg ns ty name None location = Ok base ->
  base = field_preds rg ns ty name location.
Proof.
  unfold odata_filters, field_preds, pred_if, type_pred. cbv zeta.
  destruct (truthy rg), (truthy name), (truthy location), (truthy ty), (truthy ns);
    simpl; try discriminate;
    try (destruct (re_match_ns_type (opt_str ty)); simpl; try discriminate);
    intros H; injection H as <-; reflexivity.
Qed.

Lemma break_slash_some (s pre post : string) :
  break_slash s = (pre, Some post) -> s = pre ++ String slash post /\ no_slash pre = true.
Proof.
  revert pre. induction s as [|c s IH]; simpl; intros pre H; [discriminate|].
  destruct (Ascii.eqb c slash) eqn:Ec.
  - injection H as <- <-. apply Ascii.eqb_eq in Ec. subst c. auto.
  - destruct (break_slash s) as [p0 q0] eqn:B. injection H as <- ->.
    destruct (IH p0 eq_refl) as [-> Hp]. simpl. rewrite Ec, Hp. auto.
Qed.

Lemma re_match_ns_type_iff (s : string) :
  re_match_ns_type s = true <-> embedded_ns_type s.
Proof.
  split; [|apply re_match_ns_type_embedded].
  unfold re_match_ns_type. destruct (break_slash s) as [pre [[|c r]|]] eqn:B;
    intros H; try discriminate.
  apply andb_prop in H as [H1 H2]. apply negb_true_iff in H1, H2.
  destruct (break_slash_some _ _ _ B) as [-> Hns].
  exists pre, c, r. repeat split; auto.
  - intros ->. discriminate.
  - intros ->. rewrite Ascii.eqb_refl in H2. discriminate.
Qed.

(** Splitting [odata_filters] into the field part and the tag part. *)
Ltac odata_base H base :=
  unfold odata_filters in H; cbv zeta in H;
  match type of H with
  | bind ?m _ = _ =>
      let B := fresh "B" in
      destruct m as [base|?e] eqn:B; cbn [bind] in H; [|discriminate];
      let Eb := fresh "Eb" in
      assert (base = field_preds _ _ _ _ _) as Eb
        by (apply odata_filters_no_tag; unfold odata_filters; cbv zeta; rewrite B; reflexivity);
      subst base
  end.

(** C6. A tag filter whose name ends in ['*'] becomes the prefix predicate
    [startswith(tagname, '<name without the star>')]; any other non-empty
    tag name becomes [tagname eq '<name>'], followed by
    [tagvalue eq '<value>'] when the value is not empty. *)
Theorem tag_filter_prefix_or_exact (rg ns ty name location : option string) (tg : Tag)
    (tn tv : string) (fs : list string)
    (Htag : tag_name_value tg = Some (tn, tv))
    (Hok : odata_filters rg ns ty name (Some tg) location = Ok fs) :
  (forall prefix, tn = prefix ++ "*" ->
     fs = app (field_preds rg ns ty name location)
              ["startswith(tagname, '" ++ prefix ++ "')"])
  /\ (tn <> EmptyString -> last_char tn <> Some star ->
     fs = app (field_preds rg ns ty name location)
              (("tagname eq '" ++ tn ++ "'")
                 :: (if String.eqb tv EmptyString then [] else ["tagvalue eq '" ++ tv ++ "'"]))).
Proof.
  odata_base Hok base.
  split.
  - intros prefix ->.
    assert (Hne : prefix ++ "*" <> EmptyString) by (destruct prefix; discriminate).
    destruct (tag_fields tg _ tv Htag Hne) as (T1 & T2 & T3).
    rewrite T1 in Hok. destruct (truthy name || truthy location); [discriminate|].
    rewrite T2 in Hok. cbn [bind] in Hok. rewrite T3 in Hok. cbn [bind] in Hok.
    replace (truthy (Some (prefix ++ "*"))) with true in Hok by (destruct prefix; reflexivity).
    rewrite last_char_star, Ascii.eqb_refl, drop_last_star in Hok.
    injection Hok as <-. reflexivity.
  - intros Hne Hlast.
    destruct (last_char_nonempty tn Hne) as [c Hc].
    destruct (tag_fields tg tn tv Htag Hne) as (T1 & T2 & T3).
    rewrite T1 in Hok. destruct (truthy name || truthy location); [discriminate|].
    rewrite T2 in Hok. cbn [bind] in Hok. rewrite T3 in Hok. cbn [bind] in Hok.
    assert (Tt : truthy (Some tn) = true) by (destruct tn; [congruence|reflexivity]).
    rewrite Tt, Hc in Hok.
    destruct (Ascii.eqb_spec c star) as [Ec|_]; [rewrite Ec in Hc; congruence|].
    destruct (String.eqb tv EmptyString); simpl in Hok; injection Hok as <-;
      rewrite <- ?app_assoc; reflexivity.
Qed.

(** C7. The filter builder raises when a tag filter comes with a name or a
    location filter, and when a type without a namespace has no embedded
    ['namespace/type'] separator; otherwise it joins the predicates for
    resource group, name, location and type with [' and '], followed by
    the tag predicates (none without a tag filter). *)
Theorem odata_filter_builder_spec (rg ns ty name location : option string) (tag : option Tag) :
  (tag_truthy tag = true -> truthy name || truthy location = true ->
     exists e, _list_resources_odata_filter_builder rg ns ty name tag location = Err e)
  /\ (truthy ty = true -> truthy ns = false -> ~ embedded_ns_type (opt_str ty) ->
     exists e, _list_resources_odata_filter_builder rg ns ty name tag location = Err e)
  /\ (forall s, _list_resources_odata_filter_builder rg ns ty name tag location = Ok s ->
     exists tagp, s = join_and (app (field_preds rg ns ty name location) tagp)
                  /\ (tag_truthy tag = false -> tagp = [])).
Proof.
  unfold _list_resources_odata_filter_builder. split; [|split].
  - intros Htt Hnl.
    destruct (odata_filters rg ns ty name tag location) as [fs|e] eqn:H; [|eexists; reflexivity].
    exfalso. odata_base H base.
    destruct tag as [tg|]; [|discriminate]. rewrite Htt, Hnl in H. discriminate.
  - intros Hty Hns Hemb.
    assert (Hre : re_match_ns_type (opt_str ty) = false).
    { destruct (re_match_ns_type (opt_str ty)) eqn:R; [|reflexivity].
      exfalso. apply Hemb. apply re_match_ns_type_iff. exact R. }
    unfold odata_filters. cbv zeta. rewrite Hty, Hns, Hre. eexists; reflexivity.
  - intros s Hs.
    destruct (odata_filters rg ns ty name tag location) as [fs|e] eqn:H; cbn [bind] in Hs;
      [|discriminate].
    injection Hs as <-.
    odata_base H base.
    destruct tag as [tg|];
      [|injection H as <-; exists []; rewrite app_nil_r; auto].
    destruct (tag_truthy (Some tg)) eqn:TT;
      [|injection H as <-; exists []; rewrite app_nil_r; auto].
    destruct (truthy name || truthy location); [discriminate|].
    repeat (match type of H with
            | bind ?m _ = _ => destruct m eqn:?; cbn [bind] in H; [|discriminate]
            end).
    match type of H with
    | (if truthy (Some ?a) then _ else _) = _ =>
        destruct (truthy (Some a));
        [|injection H as <-; exists []; rewrite app_nil_r; auto]
    end.
    match type of H with
    | match last_char ?a with _ => _ end = _ =>
        destruct (last_char a) as [c|];
        [|injection H as <-; exists []; rewrite app_nil_r; auto]
    end.
    destruct (Ascii.eqb c star).
    + injection H as <-. eexists; split; [reflexivity|discriminate].
    + match type of H with
      | (if negb ?b then _ else _) = _ => destruct b
      end; cbn in H; injection H as <-;
        (eexists; split; [rewrite <- ?app_assoc; reflexivity|discriminate]).
Qed.

(** * Further properties of the code *)

(** ** Parameters of a deployment *)

Lemma missing_loop_filter (parameters : json) (tp : list (string * json)) :
  (parameters = JNull \/ exists p, parameters = JObj p) ->
  Forall (fun e => exists o, snd e = JObj o) tp ->
  missing_loop parameters tp = Ok (filter (still_missing parameters) tp).
Proof.
  intros Hp Hall. induction Hall as [|[n prm] tp [o Ho] _ IH]; [reflexivity|].
  simpl in Ho; subst prm.
  assert (Hs : (match parameters with JNull => Ok JNull | _ => json_get parameters n JNull end)
               = Ok (json_field parameters n)).
  { destruct Hp as [-> | [p ->]]; reflexivity. }
  cbn [missing_loop json_get bind filter].
  change (still_missing parameters (n, JObj o))
    with (json_is_null (dict_get_default o "defaultValue" JNull)
          && json_is_null (json_field parameters n)).
  destruct (dict_get_default o "defaultValue" JNull); cbn [json_is_null andb];
    try exact IH.
  rewrite Hs, IH. cbn [bind]. destruct (json_field parameters n); reflexivity.
Qed.

(** X1. [_find_missing_parameters] keeps, in template order, exactly the
    template parameters that have no [defaultValue] and that the supplied
    parameters (a dict, or [None]) do not give a non-null value. *)
Theorem find_missing_parameters_filter (parameters : json) (template tp : list (string * json)) :
  dict_get template "parameters" = Some (JObj tp) ->
  (parameters = JNull \/ exists p, parameters = JObj p) ->
  Forall (fun e => exists o, snd e = JObj o) tp ->
  _find_missing_parameters parameters (JObj template) = Ok (filter (still_missing parameters) tp).
Proof.
  intros Ht Hp Hall. unfold _find_missing_parameters. cbn [json_get bind].
  unfold dict_get_default. rewrite Ht. exact (missing_loop_filter parameters tp Hp Hall).
Qed.

Lemma prompt_text_step (param_type : json) (value : string) (rest : list Answer) :
  param_type <> JStr "int" -> param_type <> JStr "bool" ->
  prompt_loop param_type JNull (AText value :: rest)
  = if Nat.ltb 0 (String.length value) then Ok (None, rest)
    else prompt_loop param_type JNull rest.
Proof.
  intros Hi Hb. destruct param_type as [| | |s| |]; try reflexivity.
  cbn [prompt_loop].
  repeat match goal with
         | |- context [match ?s with EmptyString => _ | String _ _ => _ end] =>
             is_var s; destruct s
         | |- context [match ?c with Ascii _ _ _ _ _ _ _ _ => _ end] =>
             is_var c; destruct c
         | |- context [if ?b then _ else _] => is_var b; destruct b
         end;
  first [reflexivity | exfalso; exact (Hi eq_refl) | exfalso; exact (Hb eq_refl)].
Qed.

(** X2. A free-text or secure-string prompt (no [allowedValues], type
    neither [int] nor [bool]) asks again after each empty answer, stops at
    the first non-empty one, and stores no value for the parameter. *)
Theorem prompt_loop_text_reprompts (param_type : json) (n : nat) (value : string)
    (rest : list Answer) :
  param_type <> JStr "int" -> param_type <> JStr "bool" ->
  0 < String.length value ->
  prompt_loop param_type JNull (app (repeat (AText EmptyString) n) (AText value :: rest))
  = Ok (None, rest).
Proof.
  intros Hi Hb Hv. induction n as [|n IH]; simpl app.
  - rewrite prompt_text_step by assumption.
    destruct (Nat.ltb_spec 0 (String.length value)); [reflexivity | lia].
  - rewrite prompt_text_step by assumption. exact IH.
Qed.

Lemma merge_loop_nulls (n : nat) (l : list json) :
  merge_loop JNull (app (repeat JNull n) l) = merge_loop JNull l.
Proof. induction n as [|n IH]; [reflexivity|]. exact IH. Qed.

(** X4. [None] documents before the first other one are skipped by
    [_merge_parameters]. *)
Theorem merge_parameters_skips_leading_nulls (n : nat) (l : list json) :
  _merge_parameters (Some (app (repeat JNull n) l)) = _merge_parameters (Some l).
Proof. unfold _merge_parameters. exact (merge_loop_nulls n l). Qed.

Lemma merge_loop_app (p : json) (l1 l2 : list json) :
  merge_loop p (app l1 l2) = (q <- merge_loop p l1 ;; merge_loop q l2).
Proof.
  revert p. induction l1 as [|d l1 IH]; intros p; [reflexivity|].
  simpl. destruct (unwrap_parameters d) as [o|e]; [|reflexivity]. simpl.
  destruct (match p with JNull => Ok o | _ => json_update p o end) as [q|e]; [|reflexivity].
  simpl. apply IH.
Qed.

(** X5. Once the documents read so far have merged into a dict, a
    following document that is not a dict is skipped when it is an empty
    string or an empty list (it is falsy, so it is not unwrapped, and
    [dict.update] accepts it as an empty sequence), and otherwise makes
    [_merge_parameters] raise: [None], [0] and [False] are not iterable,
    and any other value has no [get] method. *)
Theorem merge_parameters_non_dict_after_dict (l rest : list json) (d : list (string * json))
    (doc : json) :
  _merge_parameters (Some l) = Ok (JObj d) ->
  (forall o, doc <> JObj o) ->
  ((doc = JStr EmptyString \/ doc = JArr []) ->
   _merge_parameters (Some (app l (doc :: rest))) = _merge_parameters (Some (app l rest)))
  /\ (doc <> JStr EmptyString -> doc <> JArr [] ->
      is_err (_merge_parameters (Some (app l (doc :: rest)))) = true).
Proof.
  unfold _merge_parameters. intros H Hdoc. rewrite !merge_loop_app, H. split.
  - intros [-> | ->]; reflexivity.
  - intros Hs Ha.
    destruct doc as [|b|z|s|a|o];
      [ | destruct b | destruct z | destruct s | destruct a | exfalso; exact (Hdoc o eq_refl)];
      try reflexivity; exfalso; [exact (Hs eq_refl) | exact (Ha eq_refl)].
Qed.

Lemma prompt_for_parameters_empty (missing : dict json) (answers : list Answer)
    (r : dict json * list Answer) :
  _prompt_for_parameters missing answers = Ok r -> fst r = [].
Proof.
  unfold _prompt_for_parameters.
  destruct (prompt_params missing [] answers) as [[res ans]|e]; simpl; intros H;
    [injection H as <-; reflexivity | discriminate].
Qed.

Lemma deployment_parameters_merged (parameter_list : option (list json)) (template : json)
    (answers : list Answer) (p : json) :
  deployment_parameters parameter_list template answers = Ok p ->
  _merge_parameters parameter_list = Ok p.
Proof.
  unfold deployment_parameters.
  destruct (_merge_parameters parameter_list) as [q|e]; simpl; [|discriminate].
  destruct (_find_missing_parameters q template) as [m|e]; simpl; [|discriminate].
  destruct (Nat.ltb 0 (length m)); [|intros H; exact H].
  destruct (_prompt_for_parameters m answers) as [r|e] eqn:E; simpl; [|discriminate].
  rewrite (prompt_for_parameters_empty m answers r E). simpl. intros H; exact H.
Qed.

(** ** [_deploy_arm_template_core] *)

(** X7. With a template uri the file is never read and nothing is
    prompted for: the link is sent with no template, and the parameters
    are the merged parameter documents. *)
Theorem deploy_core_uri (get_file_json : string -> json) (rg : string)
    (template_file template_uri deployment_name : option string)
    (parameter_list : option (list json)) (mode : string) (validate_only : bool)
    (answers : list Answer) :
  truthy template_uri = true -> truthy template_file = false ->
  _deploy_arm_template_core get_file_json rg template_file template_uri deployment_name
    parameter_list mode validate_only answers
  = (p <- _merge_parameters parameter_list ;;
     Ok (deploy_call validate_only rg deployment_name
           {| dp_template := JNull; dp_template_link := Some (opt_str template_uri);
              dp_parameters := p; dp_mode := mode |})).
Proof.
  intros Hu Hf. unfold _deploy_arm_template_core. rewrite Hu, Hf. simpl.
  unfold deployment_parameters.
  destruct (_merge_parameters parameter_list) as [p|e]; reflexivity.
Qed.

(** X8. With a template file, the template sent is the file's JSON with no
    link, and the parameters sent are the merged parameter documents: the
    values typed at the prompts for missing parameters are not sent. *)
Theorem deploy_core_file (get_file_json : string -> json) (rg : string)
    (template_file template_uri deployment_name : option string)
    (parameter_list : option (list json)) (mode : string) (validate_only : bool)
    (answers : list Answer) (c : DeploymentCall) :
  truthy template_uri = false -> truthy template_file = true ->
  _deploy_arm_template_core get_file_json rg template_file template_uri deployment_name
    parameter_list mode validate_only answers = Ok c ->
  exists p, _merge_parameters parameter_list = Ok p
            /\ c = deploy_call validate_only rg deployment_name
                     {| dp_template := get_file_json (opt_str template_file);
                        dp_template_link := None; dp_parameters := p; dp_mode := mode |}.
Proof.
  intros Hu Hf. unfold _deploy_arm_template_core. rewrite Hu, Hf. simpl.
  destruct (deployment_parameters parameter_list (get_file_json (opt_str template_file)) answers)
    as [p|e] eqn:E; simpl; [|discriminate].
  intros H. injection H as <-. exists p. split.
  - exact (deployment_parameters_merged _ _ _ _ E).
  - destruct validate_only; reflexivity.
Qed.

(** ** Completion list and locks *)

Lemma validate_lock_params_split (g n : string) (p : option string) (t a b : string)
    (r : list string) :
  split_slash t = a :: b :: r ->
  _validate_lock_params (Some g) None p (Some t) (Some n) = Ok (Some g, Some n, Some a, Some b).
Proof.
  intros H. destruct t as [|c t']; [discriminate H|].
  unfold _validate_lock_params. cbn -[split_slash]. rewrite H. reflexivity.
Qed.

(** X11. Every entry of the resource-type completion list is
    ['<namespace>/<type>'] for a listed provider and one of its types; when
    namespaces and type names have no ['/'], such an entry given as the
    resource type is split back into that namespace and type, both by
    [_ResourceUtils] and by the lock commands. *)
Theorem completion_entry_splits (providers : list (string * Provider)) (s g n : string) :
  In s (get_resource_types_completion_list providers) ->
  Forall (fun p => no_slash (fst p) = true
                   /\ Forall (fun r => no_slash (resource_type r) = true) (resource_types (snd p)))
         providers ->
  exists ns prov r,
    In (ns, prov) providers /\ In r (resource_types prov) /\ s = ns ++ "/" ++ resource_type r
    /\ split_embedded_namespace None None (Some s) = (Some ns, Some (resource_type r))
    /\ _validate_lock_params (Some g) None None (Some s) (Some n)
       = Ok (Some g, Some n, Some ns, Some (resource_type r)).
Proof.
  intros Hin Hall. unfold get_resource_types_completion_list in Hin.
  apply in_flat_map in Hin as [[ns prov] [Hp Hs]].
  apply in_map_iff in Hs as [r [Hs Hr]].
  change (ns ++ "/" ++ resource_type r = s) in Hs. subst s.
  rewrite Forall_forall in Hall. destruct (Hall _ Hp) as [Hns Hrs]. simpl in Hns, Hrs.
  rewrite Forall_forall in Hrs. specialize (Hrs r Hr).
  assert (Hsp : split_slash (ns ++ "/" ++ resource_type r) = [ns; resource_type r]).
  { rewrite split_slash_app_sep, split_slash_no_slash by assumption. reflexivity. }
  exists ns, prov, r. split; [exact Hp|]. split; [exact Hr|]. split; [reflexivity|]. split.
  - assert (Ht : truthy (Some (ns ++ "/" ++ resource_type r)) = true)
      by (destruct ns; reflexivity).
    unfold split_embedded_namespace. rewrite Ht. simpl andb. cbv iota beta.
    rewrite Hsp. reflexivity.
  - exact (validate_lock_params_split g n None _ ns (resource_type r) [] Hsp).
Qed.

(** X13. A lock that [create_lock] creates is removed by [delete_lock]
    with the same arguments: both address the same scope. The lock sent
    carries the given name, level and notes. *)
Theorem create_lock_delete_lock_same_scope (name : string)
    (rg ns parent ty rname level notes : option string) (c : LockCall)
    (prm : ManagementLockObject) :
  create_lock name rg ns parent ty rname level notes = Ok (c, prm) ->
  delete_lock name rg ns parent ty rname = Ok c
  /\ lock_name prm = Some name /\ lock_level prm = level /\ lock_notes prm = notes.
Proof.
  unfold create_lock, delete_lock.
  match goal with |- context [if ?b then _ else _] => destruct b end; [discriminate|].
  destruct (_validate_lock_params rg ns parent ty rname) as [sc|e]; simpl; [|discriminate].
  intros H. injection H as <- <-. auto.
Qed.

Lemma validate_lock_params_resource_level (g m : string) (ns p t : option string)
    (sc : lock_scope) :
  _validate_lock_params (Some g) ns p t (Some m) = Ok sc ->
  exists x y, sc = (Some g, Some m, x, y).
Proof.
  unfold _validate_lock_params. intros H.
  destruct t as [[|c t']|]; try discriminate H.
  cbn -[split_slash py_index] in H. destruct ns as [x|].
  - destruct (negb _); [discriminate H|]. injection H as <-. eauto.
  - destruct (Nat.eqb _ 1); [discriminate H|].
    destruct (py_index (split_slash (String c t')) 0) as [a|e]; cbn [bind] in H; [|discriminate H].
    destruct (py_index (split_slash (String c t')) 1) as [b|e]; cbn [bind] in H; [|discriminate H].
    injection H as <-. eauto.
Qed.

(** X14. [list_locks] lists at subscription level exactly when no scope
    argument is given, at resource-group level when only the group is
    given, and otherwise at resource level with the parent path passed as
    given (possibly [None]). *)
Theorem list_locks_cases (rg ns parent ty rname : option string) (c : LockCall) :
  list_locks rg ns parent ty rname = Ok c ->
  (rg = None /\ ns = None /\ parent = None /\ ty = None /\ rname = None
   /\ c = AtSubscriptionLevel)
  \/ (exists g, rg = Some g /\ ns = None /\ parent = None /\ ty = None /\ rname = None
                /\ c = AtResourceGroupLevel g)
  \/ (exists g m ns' ty', rg = Some g /\ rname = Some m
                          /\ c = AtResourceLevel g ns' parent ty' m).
Proof.
  unfold list_locks.
  destruct (_validate_lock_params rg ns parent ty rname) as [sc|e] eqn:E; simpl; [|discriminate].
  intros H. injection H as <-.
  destruct rg as [g|]; [destruct rname as [m|]|].
  - right; right. destruct (validate_lock_params_resource_level g m ns parent ty sc E)
      as (x & y & ->).
    exists g, m, x, y. auto.
  - right; left. exists g.
    destruct ty, ns, parent; simpl in E; try discriminate E.
    injection E as <-. auto 7.
  - left. destruct rname, ty, ns, parent; simpl in E; try discriminate E.
    injection E as <-. auto 7.
Qed.

(** X15. [update_lock] rewrites only the lock it updates: the lock stored
    under the name afterwards is the one sent, the other locks of the same
    level and the locks of the other levels and groups are unchanged. *)
Theorem update_lock_frame (store : LockStore) (name : string)
    (rg level notes : option string) (sent : ManagementLockObject) (store' : LockStore) :
  update_lock store name rg level notes = Ok (sent, store') ->
  match rg with
  | None =>
      dict_get (sub_locks store') name = Some sent
      /\ (forall k, k <> name -> dict_get (sub_locks store') k = dict_get (sub_locks store) k)
      /\ rg_locks store' = rg_locks store
  | Some g =>
      dict_get (dict_get_default (rg_locks store') g []) name = Some sent
      /\ (forall k, k <> name -> dict_get (dict_get_default (rg_locks store') g []) k
                                 = dict_get (dict_get_default (rg_locks store) g []) k)
      /\ (forall g', g' <> g -> dict_get (rg_locks store') g' = dict_get (rg_locks store) g')
      /\ sub_locks store' = sub_locks store
  end.
Proof.
  unfold update_lock. destruct rg as [g|].
  - destruct (dict_get (dict_get_default (rg_locks store) g []) name) as [params|]; [|discriminate].
    intros H. injection H as <- <-. simpl.
    unfold dict_get_default at 1 3. rewrite dict_get_set_same.
    split; [apply dict_get_set_same|]. split; [|split; [|reflexivity]].
    + intros k Hk. rewrite dict_get_set. destruct (String.eqb_spec k name); [congruence|].
      reflexivity.
    + intros g' Hg. rewrite dict_get_set. destruct (String.eqb_spec g' g); [congruence|].
      reflexivity.
  - destruct (dict_get (sub_locks store) name) as [params|]; [|discriminate].
    intros H. injection H as <- <-. simpl.
    split; [apply dict_get_set_same|]. split; [|reflexivity].
    intros k Hk. rewrite dict_get_set. destruct (String.eqb_spec k name); [congruence|].
    reflexivity.
Qed.

(** ** Resource links *)

(** X16. [update_resource_link] raises for a link that does not exist;
    otherwise it stores under the link id a target and notes where each
    one not given keeps the stored value, and leaves the other links
    unchanged. *)
Theorem update_resource_link_keeps_unset (links : dict ResourceLinkProperties)
    (link_id : string) (target_id notes : option string) :
  (dict_get links link_id = None -> is_err (update_resource_link links link_id target_id notes) = true)
  /\ (forall links', update_resource_link links link_id target_id notes = Ok links' ->
      exists old, dict_get links link_id = Some old
        /\ dict_get links' link_id
           = Some {| rl_target_id := match target_id with Some t => Some t | None => rl_target_id old end;
                     rl_notes := match notes with Some n => Some n | None => rl_notes old end |}
        /\ forall k, k <> link_id -> dict_get links' k = dict_get links k).
Proof.
  unfold update_resource_link. split.
  - intros H. rewrite H. reflexivity.
  - intros links'. destruct (dict_get links link_id) as [old|]; [|discriminate].
    intros H. injection H as <-. exists old. split; [reflexivity|]. split.
    + apply dict_get_set_same.
    + intros k Hk. rewrite dict_get_set. destruct (String.eqb_spec k link_id); [congruence|].
      reflexivity.
Qed.

Lemma dict_set_set {V} (d : dict V) (k : string) (v w : V) :
  dict_set (dict_set d k v) k w = dict_set d k w.
Proof.
  induction d as [|[k1 v1] r IH]; simpl.
  - rewrite String.eqb_refl. reflexivity.
  - destruct (String.eqb_spec k k1) as [->|Hne]; simpl.
    + rewrite String.eqb_refl. reflexivity.
    + destruct (String.eqb_spec k k1); [congruence|]. rewrite IH. reflexivity.
Qed.

(** X17. A link created by [create_resource_link] reads back with the
    given target and notes, and updating it again with the same target
    and notes, or with neither, leaves the links as they are. *)
Theorem create_then_update_resource_link (links : dict ResourceLinkProperties)
    (link_id target_id : string) (notes : option string) :
  let links' := create_resource_link links link_id target_id notes in
  dict_get links' link_id = Some {| rl_target_id := Some target_id; rl_notes := notes |}
  /\ update_resource_link links' link_id None None = Ok links'
  /\ update_resource_link links' link_id (Some target_id) notes = Ok links'.
Proof.
  intros links'. subst links'. unfold create_resource_link, update_resource_link.
  rewrite dict_get_set_same. split; [reflexivity|]. rewrite !dict_set_set.
  split; [reflexivity|]. destruct notes; reflexivity.
Qed.

(** ** Resolving API versions *)

(** X18. [_resolve_api_version] succeeds only when the provider exists
    and exactly one of its resource types matches the requested type
    (ignoring case); the version it returns is one of that type's
    versions. *)
Theorem resolve_api_version_ok_unique (rcf : Rcf) (ns : string) (parent : option string)
    (ty v : string) :
  _resolve_api_version rcf ns parent ty = Ok v ->
  exists prov t,
    providers_get rcf ns = Some prov
    /\ filter (fun t => String.eqb (lower (resource_type t)) (lower (requested_type parent ty)))
              (resource_types prov) = [t]
    /\ In v (api_versions t).
Proof.
  unfold _resolve_api_version. rewrite resource_type_str_requested.
  destruct (providers_get rcf ns) as [prov|]; [|discriminate].
  destruct (filter _ (resource_types prov)) as [|t [|t2 r]] eqn:F; try discriminate.
  destruct (api_versions t) as [|v0 vs] eqn:V; [discriminate|].
  intros H. exists prov, t. split; [reflexivity|]. split; [exact F|]. rewrite V.
  destruct (filter _ (v0 :: vs)) as [|w ws] eqn:N; injection H as <-.
  - left. reflexivity.
  - assert (Hw : In w (filter (fun v => negb (contains "preview" (lower v))) (v0 :: vs)))
      by (rewrite N; left; reflexivity).
    apply filter_In in Hw. exact (proj1 Hw).
Qed.

Lemma top_level_id_concat (sub rg ns ta n1 : string) :
  "/subscriptions/" ++ sub ++ "/resourceGroups/" ++ rg ++ "/providers/" ++ ns
    ++ "/" ++ ta ++ "/" ++ n1
  = String.concat "/" [""; "subscriptions"; sub; "resourceGroups"; rg; "providers"; ns; ta; n1].
Proof. reflexivity. Qed.

Lemma grandchild_id_concat (sub rg ns ta n1 tb n2 tc n3 : string) :
  "/subscriptions/" ++ sub ++ "/resourceGroups/" ++ rg ++ "/providers/" ++ ns
    ++ "/" ++ ta ++ "/" ++ n1 ++ "/" ++ tb ++ "/" ++ n2 ++ "/" ++ tc ++ "/" ++ n3
  = String.concat "/" [""; "subscriptions"; sub; "resourceGroups"; rg; "providers"; ns;
                       ta; n1; tb; n2; tc; n3].
Proof. reflexivity. Qed.

Lemma parse_children_grandchild (tb n2 tc n3 : string) :
  tb <> "providers" ->
  parse_children [tb; n2; tc; n3]
  = [("child_type", tb); ("child_name", n2); ("grandchild_type", tc); ("grandchild_name", n3)].
Proof.
  intros H. unfold parse_children.
  destruct (String.eqb_spec tb "providers"); [contradiction|reflexivity].
Qed.

(** X19. For a top-level id [.../providers/NS/Type/name] the resolver
    looks up [Type] of [NS] with no parent. For a grandchild id
    [.../providers/NS/TypeA/name1/TypeB/name2/TypeC/name3] it passes the
    parent ['TypeA/name1/TypeB/name2'] and type [TypeC], so the version
    is the one of the top-level type [TypeA]. *)
Theorem resolve_api_version_by_id_top_and_grandchild (rcf : Rcf)
    (sub rg ns ta n1 tb n2 tc n3 : string)
    (Hsub : no_slash sub = true) (Hrg : no_slash rg = true) (Hns : no_slash ns = true)
    (Hta : no_slash ta = true) (Hn1 : no_slash n1 = true) (Htb : no_slash tb = true)
    (Hn2 : no_slash n2 = true) (Htc : no_slash tc = true) (Hn3 : no_slash n3 = true)
    (Htb_p : tb <> "providers") (Htc_ne : tc <> EmptyString) :
  _resolve_api_version_by_id rcf
    ("/subscriptions/" ++ sub ++ "/resourceGroups/" ++ rg ++ "/providers/" ++ ns
       ++ "/" ++ ta ++ "/" ++ n1)
  = _resolve_api_version rcf ns None ta
  /\
  _resolve_api_version_by_id rcf
    ("/subscriptions/" ++ sub ++ "/resourceGroups/" ++ rg ++ "/providers/" ++ ns
       ++ "/" ++ ta ++ "/" ++ n1 ++ "/" ++ tb ++ "/" ++ n2 ++ "/" ++ tc ++ "/" ++ n3)
  = _resolve_api_version rcf ns (Some (ta ++ "/" ++ n1 ++ "/" ++ tb ++ "/" ++ n2)) tc.
Proof.
  split; unfold _resolve_api_version_by_id, parse_resource_id.
  - rewrite top_level_id_concat, split_slash_concat by (discriminate || segments_ok).
    reflexivity.
  - rewrite grandchild_id_concat, split_slash_concat by (discriminate || segments_ok).
    rewrite parse_children_grandchild by exact Htb_p.
    destruct tc as [|c tc]; [congruence|]. reflexivity.
Qed.

(** ** Policies *)

(** X21. [update_policy_definition] parses the rules argument before
    fetching the definition, so a parse error is raised whatever is
    stored; after an update, the stored definition is the one sent, the
    description and display name not given keep their stored values, the
    rule is kept when no rules are given or they parse to [None], and the
    other definitions are unchanged. *)
Theorem update_policy_definition_keeps_unset (path_exists : string -> bool)
    (get_file_json : string -> json) (shell_safe_json_parse : string -> result json)
    (definitions : dict PolicyDefinition) (name : string)
    (rules display_name description : option string) :
  (forall r e, rules = Some r -> load_rules path_exists get_file_json shell_safe_json_parse r = Err e ->
     update_policy_definition path_exists get_file_json shell_safe_json_parse definitions name
       rules display_name description = Err e)
  /\ (forall definitions' sent,
      update_policy_definition path_exists get_file_json shell_safe_json_parse definitions name
        rules display_name description = Ok (definitions', sent) ->
      exists old loaded,
        dict_get definitions name = Some old
        /\ match rules with
           | Some r => load_rules path_exists get_file_json shell_safe_json_parse r
           | None => Ok JNull
           end = Ok loaded
        /\ dict_get definitions' name = Some sent
        /\ pd_policy_rule sent = match loaded with JNull => pd_policy_rule old | r => r end
        /\ pd_description sent = match description with Some d => Some d
                                                       | None => pd_description old end
        /\ pd_display_name sent = match display_name with Some d => Some d
                                                         | None => pd_display_name old end
        /\ (forall k, k <> name -> dict_get definitions' k = dict_get definitions k)).
Proof.
  unfold update_policy_definition. split.
  - intros r e -> H. rewrite H. reflexivity.
  - intros definitions' sent.
    destruct (match rules with
              | Some r => load_rules path_exists get_file_json shell_safe_json_parse r
              | None => Ok JNull
              end) as [loaded|e] eqn:L; [|discriminate]. cbn [bind].
    destruct (dict_get definitions name) as [old|]; [|discriminate].
    intros H. injection H as <- <-. exists old, loaded.
    split; [reflexivity|]. split; [reflexivity|]. split; [apply dict_get_set_same|].
    split; [destruct loaded; reflexivity|]. split; [reflexivity|]. split; [reflexivity|].
    intros k Hk. rewrite dict_get_set. destruct (String.eqb_spec k name); [congruence|].
    reflexivity.
Qed.

(** X24. Unless strict matching is disabled, [list_policy_assignment]
    keeps only the assignments whose scope equals the queried scope,
    ignoring case: with no group and no scope, those of the subscription
    itself; with a group, those of the group itself. *)
Theorem list_policy_assignment_strict (is_valid_resource_id : string -> bool)
    (subscription_id : string) (list_for_resource_group : string -> list PolicyAssignment)
    (list_for_resource : string -> string -> string -> string -> string -> list PolicyAssignment)
    (list_all : list PolicyAssignment) :
  list_policy_assignment is_valid_resource_id subscription_id list_for_resource_group
    list_for_resource list_all false None None
  = Ok (filter (fun i => String.eqb (lower ("/subscriptions/" ++ subscription_id))
                                    (lower (pa_scope i))) list_all)
  /\ (forall g, g <> EmptyString ->
      list_policy_assignment is_valid_resource_id subscription_id list_for_resource_group
        list_for_resource list_all false (Some g) None
      = Ok (filter (fun i => String.eqb
                               (lower ("/subscriptions/" ++ subscription_id
                                       ++ "/resourceGroups/" ++ g))
                               (lower (pa_scope i))) (list_for_resource_group g))).
Proof.
  split; [reflexivity|].
  intros g Hg. destruct g as [|c g]; [congruence|]. reflexivity.
Qed.

(** ** [move_resource] *)

Lemma parse_all_ok (is_valid_resource_id : string -> bool) (parse : string -> dict string)
    (ids : list string) (rs : list (dict string)) :
  parse_all is_valid_resource_id parse ids = Ok rs ->
  rs = map parse ids /\ Forall (fun i => is_valid_resource_id i = true) ids.
Proof.
  revert rs. induction ids as [|i ids IH]; simpl; intros rs H.
  - injection H as <-. auto.
  - destruct (is_valid_resource_id i) eqn:V; [|discriminate].
    destruct (parse_all is_valid_resource_id parse ids) as [rs'|e]; simpl in H; [|discriminate].
    injection H as <-. destruct (IH rs' eq_refl) as [-> Hall]. auto.
Qed.

Lemma parse_all_invalid (is_valid_resource_id : string -> bool) (parse : string -> dict string)
    (ids : list string) :
  Exists (fun i => is_valid_resource_id i = false) ids ->
  is_err (parse_all is_valid_resource_id parse ids) = true.
Proof.
  induction 1 as [i ids H|i ids _ IH]; simpl.
  - rewrite H. reflexivity.
  - destruct (is_valid_resource_id i); [|reflexivity].
    destruct (parse_all is_valid_resource_id parse ids); [discriminate IH|reflexivity].
Qed.

Lemma map_result_index (rs : list (dict string)) (k : string) (vs : list string) :
  map_result (fun r => dict_index r k) rs = Ok vs ->
  Forall2 (fun r v => dict_get r k = Some v) rs vs.
Proof.
  revert vs. induction rs as [|r rs IH]; simpl; intros vs H.
  - injection H as <-. constructor.
  - unfold dict_index at 1 in H. destruct (dict_get r k) as [v|] eqn:E; [|discriminate].
    simpl in H. destruct (map_result (fun r => dict_index r k) rs) as [vs'|e];
      simpl in H; [|discriminate].
    injection H as <-. constructor; auto.
Qed.

Lemma set_size_le_1 (xs : list string) (x y : string) :
  set_size xs <= 1 -> In x xs -> In y xs -> x = y.
Proof.
  unfold set_size. intros Hl Hx Hy.
  apply (nodup_In string_dec) in Hx. apply (nodup_In string_dec) in Hy.
  destruct (nodup string_dec xs) as [|z [|w r]].
  - destruct Hx.
  - destruct Hx as [<-|[]]. destruct Hy as [<-|[]]. reflexivity.
  - simpl in Hl. lia.
Qed.

Lemma forall2_same (rs : list (dict string)) (k : string) (vs : list string) (g : string) :
  Forall2 (fun r v => dict_get r k = Some v) rs vs ->
  (forall v, In v vs -> v = g) ->
  Forall (fun r => dict_get r k = Some g) rs.
Proof.
  induction 1 as [|r v rs vs Hr _ IH]; intros Hg; constructor.
  - rewrite Hr, (Hg v (or_introl eq_refl)). reflexivity.
  - apply IH. intros w Hw. apply Hg. right. exact Hw.
Qed.

(** X25. [move_resource] raises if one of the ids is not a valid resource
    id. When it succeeds, the ids are not empty, all of them are valid and
    lie in one subscription and one resource group, that group is the
    source of the move, the ids are passed on unchanged, and the target is
    the destination group in the destination subscription, or in the
    client's subscription when none is given. *)
Theorem move_resource_checks (is_valid_resource_id : string -> bool)
    (parse : string -> dict string) (resource_id_of : string -> string -> string)
    (default_subscription : string) (ids : list string) (destination_group : string)
    (destination_subscription_id : option string) :
  (Exists (fun i => is_valid_resource_id i = false) ids ->
   is_err (move_resource is_valid_resource_id parse resource_id_of default_subscription ids
             destination_group destination_subscription_id) = true)
  /\ (forall g ids' target,
      move_resource is_valid_resource_id parse resource_id_of default_subscription ids
        destination_group destination_subscription_id = Ok (g, ids', target) ->
      ids' = ids /\ ids <> []
      /\ target = resource_id_of (if truthy destination_subscription_id
                                  then opt_str destination_subscription_id
                                  else default_subscription) destination_group
      /\ Forall (fun i => is_valid_resource_id i = true) ids
      /\ (exists s, Forall (fun i => dict_get (parse i) "subscription" = Some s) ids)
      /\ Forall (fun i => dict_get (parse i) "resource_group" = Some g) ids).
Proof.
  unfold move_resource. split.
  - intros H. pose proof (parse_all_invalid is_valid_resource_id parse ids H) as E.
    destruct (parse_all is_valid_resource_id parse ids); [discriminate E|reflexivity].
  - intros g ids' target.
    destruct (parse_all is_valid_resource_id parse ids) as [rs|e] eqn:P; simpl; [|discriminate].
    destruct (parse_all_ok _ _ _ _ P) as [-> Hvalid].
    destruct (map_result (fun r => dict_index r "subscription") (map parse ids))
      as [subs|e] eqn:S; simpl; [|discriminate].
    destruct (Nat.ltb_spec 1 (set_size subs)) as [_|Hs]; [discriminate|].
    destruct (map_result (fun r => dict_index r "resource_group") (map parse ids))
      as [groups|e] eqn:G; simpl; [|discriminate].
    destruct (Nat.ltb_spec 1 (set_size groups)) as [_|Hg]; [discriminate|].
    destruct ids as [|i0 ids0]; [discriminate|].
    cbn [map py_index nth_error bind]. unfold dict_index at 1.
    destruct (dict_get (parse i0) "resource_group") as [g0|] eqn:E0; cbn [bind]; [|discriminate].
    intros H. injection H as <- <- <-.
    apply map_result_index in S. apply map_result_index in G.
    split; [reflexivity|]. split; [discriminate|]. split; [reflexivity|].
    split; [exact Hvalid|]. split.
    + destruct subs as [|s0 subs0]; [inversion S|].
      exists s0. rewrite <- (Forall_map parse (fun r => dict_get r "subscription" = Some s0)).
      apply (forall2_same _ _ _ _ S).
      intros v Hv. exact (set_size_le_1 _ _ _ Hs Hv (or_introl eq_refl)).
    + rewrite <- (Forall_map parse (fun r => dict_get r "resource_group" = Some g0)).
      apply (forall2_same _ _ _ _ G).
      intros v Hv. inversion G as [|r v0 rs vs Hr _ Eq1 Eq2]; subst.
      rewrite E0 in Hr. injection Hr as <-.
      exact (set_size_le_1 _ _ _ Hg Hv (or_introl eq_refl)).
Qed.

(** ** [_ResourceUtils.tag] *)

(** X26. [tag] writes back to the address and API version it read the
    resource from (the id when there is one), replacing the tags and
    copying location, plan, properties, kind, managed-by, sku and identity
    of the fetched resource. *)
Theorem tag_writes_back (get : ResourceAddress -> string -> result GenericResource)
    (self : ResourceUtils) (tags : option (dict string)) (addr : ResourceAddress)
    (api : string) (prm : GenericResource) :
  tag get self tags = Ok (addr, api, prm) ->
  addr = ru_address self /\ api = ru_api_version self
  /\ (truthy (ru_resource_id self) = true -> addr = ById (opt_str (ru_resource_id self)))
  /\ exists r, get (ru_address self) (ru_api_version self) = Ok r
     /\ gr_tags prm = tags /\ gr_location prm = gr_location r /\ gr_plan prm = gr_plan r
     /\ gr_properties prm = gr_properties r /\ gr_kind prm = gr_kind r
     /\ gr_managed_by prm = gr_managed_by r /\ gr_sku prm = gr_sku r
     /\ gr_identity prm = gr_identity r.
Proof.
  unfold tag, get_resource.
  destruct (get (ru_address self) (ru_api_version self)) as [r|e]; simpl; [|discriminate].
  intros H. injection H as <- <- <-.
  split; [reflexivity|]. split; [reflexivity|]. split.
  - intros Ht. unfold ru_address. rewrite Ht. reflexivity.
  - exists r. repeat split.
Qed.

(** * Witnesses: each theorem applied at a concrete input *)

Lemma resolve_api_version_first_non_preview_witness :
  providers_get sample_rcf "Microsoft.Web" = Some web_provider
  /\ exists r, _resolve_api_version sample_rcf "Microsoft.Web" None "Sites" = Ok r
                /\ is_preview r = false.
Proof.
  split; [reflexivity|].
  destruct (resolve_api_version_first_non_preview sample_rcf "Microsoft.Web" None "Sites"
              web_provider sites_type eq_refl eq_refl ltac:(discriminate))
    as (r & Hr & [(pre & post & _ & _ & Hnp) | (Hall & Hhd)]).
  - exists r. split; [exact Hr | exact Hnp].
  - exfalso. inversion Hall as [|? ? H1 H2]; subst. inversion H2 as [|? ? H3 _]. discriminate H3.
Defined.

Lemma resolve_api_version_by_id_child_witness :
  _resolve_api_version_by_id sample_rcf
    "/subscriptions/s1/resourceGroups/g1/providers/Microsoft.Web/sites/app1/config/web"
  = _resolve_api_version sample_rcf "Microsoft.Web" (Some "sites/app1") "config".
Proof.
  exact (proj1 (resolve_api_version_by_id_child sample_rcf "s1" "g1" "Microsoft.Web" "sites"
                  "app1" "Microsoft.Insights" "config" "web" eq_refl eq_refl eq_refl eq_refl
                  eq_refl eq_refl eq_refl eq_refl ltac:(discriminate))).
Defined.

Lemma validate_lock_params_rejects_witness :
  (exists e, _validate_lock_params None None None (Some "Microsoft.Web/sites") None = Err e)
  /\ (exists e, _validate_lock_params (Some "g1") None None (Some "") (Some "app1") = Err e).
Proof.
  split.
  - apply (proj1 (validate_lock_params_rejects None None None (Some "Microsoft.Web/sites") None));
      [reflexivity | discriminate].
  - apply (proj2 (validate_lock_params_rejects (Some "g1") None None (Some "") (Some "app1")));
      [discriminate | right; reflexivity].
Defined.

Lemma merge_parameters_later_wins_witness :
  exists d, _merge_parameters (Some [JObj [("parameters", JObj [("a", JInt 1); ("b", JInt 2)])];
                                     JObj [("b", JInt 3)]]) = Ok (JObj d)
            /\ dict_get d "b" = Some (JInt 3).
Proof.
  destruct (merge_parameters_later_wins
              [JObj [("parameters", JObj [("a", JInt 1); ("b", JInt 2)])]; JObj [("b", JInt 3)]]
              [[("a", JInt 1); ("b", JInt 2)]; [("b", JInt 3)]]
              ltac:(discriminate)
              ltac:(repeat constructor)
              ltac:(repeat constructor; simpl; intuition discriminate))
    as (d & Hm & Hk).
  exists d. split; [exact Hm|]. rewrite Hk. reflexivity.
Defined.

Lemma prompt_for_parameters_discards_witness :
  deployment_parameters (Some [JObj [("a", JInt 1)]])
    (JObj [("parameters", JObj [("a", JObj []); ("count", JObj [("type", JStr "int")])])])
    [AInt 5] = Ok (JObj [("a", JInt 1)])
  /\ _merge_parameters (Some [JObj [("a", JInt 1)]]) = Ok (JObj [("a", JInt 1)]).
Proof.
  split; [reflexivity|].
  apply (proj2 prompt_for_parameters_discards _
           (JObj [("parameters", JObj [("a", JObj []); ("count", JObj [("type", JStr "int")])])])
           [AInt 5]).
  reflexivity.
Defined.

Lemma tag_filter_prefix_or_exact_witness :
  ["resourceGroup eq 'g1'"; "startswith(tagname, 'env')"]
  = app (field_preds (Some "g1") None None None None) ["startswith(tagname, 'env')"].
Proof.
  exact (proj1 (tag_filter_prefix_or_exact (Some "g1") None None None None
                  (TagDict [("env*", "prod")]) "env*" "prod"
                  ["resourceGroup eq 'g1'"; "startswith(tagname, 'env')"] eq_refl eq_refl)
               "env" eq_refl).
Defined.

Lemma odata_filter_builder_spec_witness :
  (exists e, _list_resources_odata_filter_builder None None None (Some "vm1")
               (Some (TagStr "env")) None = Err e)
  /\ (exists e, _list_resources_odata_filter_builder None None (Some "sites") None None None = Err e).
Proof.
  split.
  - apply (proj1 (odata_filter_builder_spec None None None (Some "vm1") None (Some (TagStr "env"))));
      reflexivity.
  - apply (proj1 (proj2 (odata_filter_builder_spec None None (Some "sites") None None None)));
      [reflexivity | reflexivity |].
    intros (a & c & b & E & _ & _ & _). destruct a as [|x a]; [discriminate|].
    injection E as _ E. repeat (destruct a as [|? a]; try discriminate E; injection E as _ E).
Defined.

Lemma build_policy_scope_cases_witness :
  _build_policy_scope "sub1" (Some "g1") None = Ok (Some "/subscriptions/sub1/resourceGroups/g1").
Proof.
  exact (proj1 (proj2 (build_policy_scope_cases "sub1" (Some "g1") None)) "g1" eq_refl eq_refl
           ltac:(discriminate)).
Defined.

Lemma embedded_namespace_split_witness :
  _validate_lock_params (Some "g1") None None (Some "Microsoft.Compute/virtualMachines") (Some "vm1")
  = Ok (Some "g1", Some "vm1", Some "Microsoft.Compute", Some "virtualMachines")
  /\ _ResourceUtils_init sample_rcf (Some "g1") None None (Some "Microsoft.Compute/virtualMachines")
        (Some "vm1") None None
      = (v <- _resolve_api_version sample_rcf "Microsoft.Compute" None "virtualMachines" ;;
         Ok {| ru_resource_group_name := Some "g1";
               ru_resource_provider_namespace := Some "Microsoft.Compute";
               ru_parent_resource_path := None; ru_resource_type := Some "virtualMachines";
               ru_resource_name := Some "vm1"; ru_resource_id := None; ru_api_version := v |}).
Proof.
  pose proof (embedded_namespace_split sample_rcf "g1" "vm1" "Microsoft.Compute"
                "virtualMachines" "" None None eq_refl eq_refl (or_introl eq_refl)) as H.
  split.
  - exact (proj1 H None).
  - exact (proj2 (proj2 (proj2 H)) eq_refl eq_refl).
Defined.

Lemma update_lock_keeps_notes_witness :
  exists sent store', update_lock sample_store "lock1" None (Some "CanNotDelete")
                        (Some "temporary") = Ok (sent, store')
                      /\ lock_notes sent = Some "created by ops".
Proof.
  destruct (update_lock sample_store "lock1" None (Some "CanNotDelete") (Some "temporary"))
    as [[sent store']|e] eqn:H; [|discriminate H].
  exists sent, store'. split; [reflexivity|].
  destruct (update_lock_keeps_notes sample_store "lock1" None (Some "CanNotDelete")
              (Some "temporary") sent store' ltac:(discriminate) H) as (fetched & F & N & _).
  simpl in F. injection F as <-. exact N.
Defined.

Lemma find_missing_parameters_filter_witness :
  _find_missing_parameters (JObj [("a", JInt 1)])
    (JObj [("parameters", JObj [("a", JObj []); ("b", JObj [("defaultValue", JInt 2)]);
                                ("c", JObj [])])])
  = Ok [("c", JObj [])].
Proof.
  exact (eq_trans
           (find_missing_parameters_filter (JObj [("a", JInt 1)])
              [("parameters", JObj [("a", JObj []); ("b", JObj [("defaultValue", JInt 2)]);
                                   ("c", JObj [])])]
              [("a", JObj []); ("b", JObj [("defaultValue", JInt 2)]); ("c", JObj [])]
              eq_refl (or_intror (ex_intro _ _ eq_refl))
              ltac:(repeat constructor; eexists; reflexivity))
           eq_refl).
Defined.

Lemma prompt_loop_text_reprompts_witness :
  prompt_loop (JStr "string") JNull [AText ""; AText ""; AText "web1"; AInt 3]
  = Ok (None, [AInt 3]).
Proof.
  exact (prompt_loop_text_reprompts (JStr "string") 2 "web1" [AInt 3]
           ltac:(discriminate) ltac:(discriminate) ltac:(simpl; lia)).
Defined.

Lemma merge_parameters_non_dict_after_dict_witness :
  _merge_parameters (Some [JObj [("a", JInt 1)]; JArr []; JObj [("b", JInt 2)]])
  = _merge_parameters (Some [JObj [("a", JInt 1)]; JObj [("b", JInt 2)]])
  /\ is_err (_merge_parameters (Some [JObj [("a", JInt 1)]; JNull])) = true.
Proof.
  split.
  - exact (proj1 (merge_parameters_non_dict_after_dict [JObj [("a", JInt 1)]]
                    [JObj [("b", JInt 2)]] [("a", JInt 1)] (JArr [])
                    eq_refl (fun o => ltac:(discriminate))) (or_intror eq_refl)).
  - exact (proj2 (merge_parameters_non_dict_after_dict [JObj [("a", JInt 1)]] [] [("a", JInt 1)]
                    JNull eq_refl (fun o => ltac:(discriminate)))
                 ltac:(discriminate) ltac:(discriminate)).
Defined.

Lemma deploy_core_uri_witness :
  _deploy_arm_template_core (fun _ => JNull) "g1" None (Some "https://t") (Some "d1")
    (Some [JObj [("a", JInt 1)]]) "incremental" false []
  = Ok (DeployCreateOrUpdate "g1" (Some "d1")
          {| dp_template := JNull; dp_template_link := Some "https://t";
             dp_parameters := JObj [("a", JInt 1)]; dp_mode := "incremental" |}).
Proof.
  exact (eq_trans
           (deploy_core_uri (fun _ => JNull) "g1" None (Some "https://t") (Some "d1")
              (Some [JObj [("a", JInt 1)]]) "incremental" false [] eq_refl eq_refl)
           eq_refl).
Defined.

Lemma deploy_core_file_witness :
  exists p, _merge_parameters (Some [JObj [("a", JInt 1)]]) = Ok p
            /\ DeployValidate "g1" (Some "d1")
                 {| dp_template := JObj []; dp_template_link := None;
                    dp_parameters := JObj [("a", JInt 1)]; dp_mode := "incremental" |}
               = deploy_call true "g1" (Some "d1")
                   {| dp_template := JObj []; dp_template_link := None;
                      dp_parameters := p; dp_mode := "incremental" |}.
Proof.
  exact (deploy_core_file (fun _ => JObj []) "g1" (Some "t.json") None (Some "d1")
           (Some [JObj [("a", JInt 1)]]) "incremental" true []
           (DeployValidate "g1" (Some "d1")
              {| dp_template := JObj []; dp_template_link := None;
                 dp_parameters := JObj [("a", JInt 1)]; dp_mode := "incremental" |})
           eq_refl eq_refl eq_refl).
Defined.

Lemma completion_entry_splits_witness :
  exists ns prov r,
    In (ns, prov) [("Microsoft.Web", web_provider)] /\ In r (resource_types prov)
    /\ "Microsoft.Web/sites" = ns ++ "/" ++ resource_type r
    /\ split_embedded_namespace None None (Some "Microsoft.Web/sites")
       = (Some ns, Some (resource_type r))
    /\ _validate_lock_params (Some "g1") None None (Some "Microsoft.Web/sites") (Some "web1")
       = Ok (Some "g1", Some "web1", Some ns, Some (resource_type r)).
Proof.
  exact (completion_entry_splits [("Microsoft.Web", web_provider)] "Microsoft.Web/sites"
           "g1" "web1" ltac:(vm_compute; left; reflexivity) ltac:(vm_compute; repeat constructor)).
Defined.

Lemma create_lock_delete_lock_same_scope_witness :
  delete_lock "lock1" (Some "g1") None None (Some "Microsoft.Web/sites") (Some "web1")
  = Ok (AtResourceLevel "g1" (Some "Microsoft.Web") (Some "") (Some "sites") "web1")
  /\ lock_name sample_lock = Some "lock1" /\ lock_level sample_lock = Some "ReadOnly"
  /\ lock_notes sample_lock = Some "created by ops".
Proof.
  exact (create_lock_delete_lock_same_scope "lock1" (Some "g1") None None
           (Some "Microsoft.Web/sites") (Some "web1") (Some "ReadOnly") (Some "created by ops")
           (AtResourceLevel "g1" (Some "Microsoft.Web") (Some "") (Some "sites") "web1")
           sample_lock eq_refl).
Defined.

Lemma list_locks_cases_witness :
  (Some "g1" = None /\ @None string = None /\ @None string = None /\ @None string = None
   /\ @None string = None /\ AtResourceGroupLevel "g1" = AtSubscriptionLevel)
  \/ (exists g, Some "g1" = Some g /\ @None string = None /\ @None string = None
                /\ @None string = None /\ @None string = None
                /\ AtResourceGroupLevel "g1" = AtResourceGroupLevel g)
  \/ (exists g m ns' ty', Some "g1" = Some g /\ None = Some m
                          /\ AtResourceGroupLevel "g1" = AtResourceLevel g ns' None ty' m).
Proof.
  exact (list_locks_cases (Some "g1") None None None None (AtResourceGroupLevel "g1") eq_refl).
Defined.

Lemma update_lock_frame_witness :
  exists sent store',
    update_lock sample_store "lock1" None (Some "CanNotDelete") None = Ok (sent, store')
    /\ dict_get (sub_locks store') "lock1" = Some sent /\ rg_locks store' = [].
Proof.
  eexists; eexists; split; [reflexivity|].
  destruct (update_lock_frame sample_store "lock1" None (Some "CanNotDelete") None _ _ eq_refl)
    as (A & _ & C).
  split; [exact A | exact C].
Defined.

Lemma update_resource_link_keeps_unset_witness :
  exists old,
    dict_get [("link1", {| rl_target_id := Some "t1"; rl_notes := Some "n1" |})] "link1" = Some old
    /\ dict_get [("link1", {| rl_target_id := Some "t2"; rl_notes := Some "n1" |})] "link1"
       = Some {| rl_target_id := Some "t2"; rl_notes := rl_notes old |}
    /\ (forall k, k <> "link1" ->
        dict_get [("link1", {| rl_target_id := Some "t2"; rl_notes := Some "n1" |})] k
        = dict_get [("link1", {| rl_target_id := Some "t1"; rl_notes := Some "n1" |})] k).
Proof.
  exact (proj2 (update_resource_link_keeps_unset
                  [("link1", {| rl_target_id := Some "t1"; rl_notes := Some "n1" |})]
                  "link1" (Some "t2") None)
           [("link1", {| rl_target_id := Some "t2"; rl_notes := Some "n1" |})] eq_refl).
Defined.

Lemma resolve_api_version_ok_unique_witness :
  exists prov t,
    providers_get sample_rcf "Microsoft.Web" = Some prov
    /\ filter (fun t => String.eqb (lower (resource_type t)) (lower (requested_type None "Sites")))
              (resource_types prov) = [t]
    /\ In "2015-08-01" (api_versions t).
Proof.
  exact (resolve_api_version_ok_unique sample_rcf "Microsoft.Web" None "Sites" "2015-08-01"
           eq_refl).
Defined.

Lemma resolve_api_version_by_id_top_and_grandchild_witness :
  _resolve_api_version_by_id sample_rcf
    "/subscriptions/s1/resourceGroups/g1/providers/Microsoft.Web/sites/web1/slots/s/config/c"
  = _resolve_api_version sample_rcf "Microsoft.Web" (Some "sites/web1/slots/s") "config".
Proof.
  exact (proj2 (resolve_api_version_by_id_top_and_grandchild sample_rcf "s1" "g1"
                  "Microsoft.Web" "sites" "web1" "slots" "s" "config" "c"
                  eq_refl eq_refl eq_refl eq_refl eq_refl eq_refl eq_refl eq_refl eq_refl
                  ltac:(discriminate) ltac:(discriminate))).
Defined.

Lemma update_policy_definition_keeps_unset_witness :
  update_policy_definition (fun _ => false) (fun _ => JNull)
    (fun _ => Err (CLIError "Failed to parse")) [] "def1" (Some "{") None None
  = Err (CLIError "Failed to parse").
Proof.
  exact (proj1 (update_policy_definition_keeps_unset (fun _ => false) (fun _ => JNull)
                  (fun _ => Err (CLIError "Failed to parse")) [] "def1" (Some "{") None None)
           "{" (CLIError "Failed to parse") eq_refl eq_refl).
Defined.

Lemma list_policy_assignment_strict_witness :
  list_policy_assignment (fun _ => false) "s1"
    (fun _ => [{| pa_name := "a1"; pa_scope := "/subscriptions/s1/resourceGroups/G1" |};
               {| pa_name := "a2"; pa_scope := "/subscriptions/s1" |}])
    (fun _ _ _ _ _ => []) [] false (Some "g1") None
  = Ok [{| pa_name := "a1"; pa_scope := "/subscriptions/s1/resourceGroups/G1" |}].
Proof.
  exact (eq_trans
           (proj2 (list_policy_assignment_strict (fun _ => false) "s1"
                     (fun _ => [{| pa_name := "a1";
                                   pa_scope := "/subscriptions/s1/resourceGroups/G1" |};
                                {| pa_name := "a2"; pa_scope := "/subscriptions/s1" |}])
                     (fun _ _ _ _ _ => []) []) "g1" ltac:(discriminate))
           eq_refl).
Defined.

Lemma move_resource_checks_witness :
  is_err (move_resource (fun i => String.eqb i "id1") (fun _ => []) (fun s g => s ++ "/" ++ g)
            "s1" ["id1"; "bad"] "g2" None) = true.
Proof.
  exact (proj1 (move_resource_checks (fun i => String.eqb i "id1") (fun _ => [])
                  (fun s g => s ++ "/" ++ g) "s1" ["id1"; "bad"] "g2" None)
           ltac:(right; left; reflexivity)).
Defined.

Lemma tag_writes_back_witness :
  exists addr api prm,
    tag (fun _ _ => Ok {| gr_id := Some "id1"; gr_name := Some "web1";
                          gr_location := Some "westus"; gr_tags := None; gr_plan := None;
                          gr_properties := JObj []; gr_kind := None; gr_managed_by := None;
                          gr_sku := None; gr_identity := None |})
        {| ru_resource_group_name := None; ru_resource_provider_namespace := None;
           ru_parent_resource_path := None; ru_resource_type := None; ru_resource_name := None;
           ru_resource_id := Some "id1"; ru_api_version := "2015-08-01" |}
        (Some [("env", "prod")]) = Ok (addr, api, prm)
    /\ addr = ById "id1" /\ gr_location prm = Some "westus".
Proof.
  do 3 eexists. split; [reflexivity|].
  destruct (tag_writes_back
              (fun _ _ => Ok {| gr_id := Some "id1"; gr_name := Some "web1";
                                gr_location := Some "westus"; gr_tags := None; gr_plan := None;
                                gr_properties := JObj []; gr_kind := None;
                                gr_managed_by := None; gr_sku := None; gr_identity := None |})
              {| ru_resource_group_name := None; ru_resource_provider_namespace := None;
                 ru_parent_resource_path := None; ru_resource_type := None;
                 ru_resource_name := None; ru_resource_id := Some "id1";
                 ru_api_version := "2015-08-01" |}
              (Some [("env", "prod")]) _ _ _ eq_refl)
    as (_ & _ & Hid & r & Hr & _ & Hloc & _).
  split; [exact (Hid eq_refl)|]. injection Hr as <-. exact Hloc.
Defined.
